(** * cs_kit: the normalisation-and-mapping pipeline

    A shallow embedding of [cs_kit/normalizer/ocsf_models.py],
    [cs_kit/normalizer/parser.py], [cs_kit/normalizer/mapping.py] and
    [cs_kit/normalizer/summarize.py], followed by the properties of the
    pipeline that the specification states about them.

    Conventions of the embedding:
    - a Python [str] is a [string]; its characters are read as the code
      points 0..255;
    - a value produced by [json.load] / [yaml.safe_load] is a [json] tree,
      a Python [dict] with string keys is a [gmap string _] (equality of
      Python dicts ignores insertion order, as equality of [gmap]s does);
    - a function that may raise returns a [result]; the constructors of
      [exn] are the exception classes that the modelled code can raise;
    - what the code takes from its environment (the rendering of
      containers by [str()], ISO-8601 parsing, ...) is a field of the class
      [PyEnv]; the time that [datetime.now] returns is an argument of the
      functions that read the clock. *)

From Stdlib Require Import ZArith String Ascii List Lia.
From stdpp Require Import base option list gmap strings sorting pretty.

Open Scope string_scope.

(* ================================================================== *)
(** * Python values and primitives *)
(* ================================================================== *)

Module Py.

(** Exceptions raised by the modelled code. [MappingNotFoundError] carries
    its message; the message of the other exceptions is not modelled. *)
Inductive exn : Type :=
  | TypeError
  | KeyError
  | IndexError
  | ValueError
  | FileNotFoundError
  | JSONDecodeError
  | ValidationError
  | MappingLoadError
  | MappingNotFoundError (message : string).

Inductive result (A : Type) : Type :=
  | Ok (a : A)
  | Raise (e : exn).
Arguments Ok {A} a.
Arguments Raise {A} e.

Definition bind {A B} (r : result A) (k : A -> result B) : result B :=
  match r with
  | Ok a => k a
  | Raise e => Raise e
  end.

Definition is_ok {A} (r : result A) : bool :=
  match r with Ok _ => true | Raise _ => false end.

(** A Python [float]: what the modelled code observes of it is whether it
    is zero (its truth value) and what [str()] prints for it. *)
Inductive pyfloat : Type :=
  | FloatZero (negative : bool)
  | FloatNonzero (printed : string).

#[warnings="-register-all"]
Inductive json : Type :=
  | JNull
  | JBool (b : bool)
  | JInt (n : Z)
  | JFloat (x : pyfloat)
  | JStr (s : string)
  | JList (l : list json)
  | JDict (m : gmap string json).

Definition dict_is_empty {V} (m : gmap string V) : bool := Nat.eqb (size m) 0.

(** [bool(v)]: the truth value used by [if v:] and [not v]. *)
Definition truthy (v : json) : bool :=
  match v with
  | JNull => false
  | JBool b => b
  | JInt n => negb (Z.eqb n 0)
  | JFloat (FloatZero _) => false
  | JFloat (FloatNonzero _) => true
  | JStr s => negb (String.eqb s "")
  | JList l => match l with [] => false | _ :: _ => true end
  | JDict m => negb (dict_is_empty m)
  end.

(** A [datetime]: its position on the time line, and whether it carries a
    UTC offset. *)
Record datetime : Type := { instant : Z; aware : bool }.

(** The environment of the code. *)
Class PyEnv : Type := {
  (** [str(v)] for a non-empty list or dict [v] *)
  str_of_container : json -> string;
  (** [repr(l)] for a list of strings, as an f-string prints it *)
  repr_str_list : list string -> string;
  (** pydantic's lax conversion to [int] of a value that is neither an
      [int] nor [None]; [None] when the value is rejected *)
  coerce_int : json -> option Z;
  (** [datetime.fromisoformat(s)]; [None] when it raises [ValueError] *)
  fromisoformat : string -> option datetime
}.

(** [str(v)] *)
Definition str `{PyEnv} (v : json) : string :=
  match v with
  | JNull => "None"
  | JBool true => "True"
  | JBool false => "False"
  | JInt n => pretty n
  | JFloat (FloatZero false) => "0.0"
  | JFloat (FloatZero true) => "-0.0"
  | JFloat (FloatNonzero s) => s
  | JStr s => s
  | JList [] => "[]"
  | JList (_ :: _) => str_of_container v
  | JDict m => if dict_is_empty m then "{}" else str_of_container v
  end.

(** [sub in s] for two strings *)
Fixpoint str_contains (sub s : string) : bool :=
  String.prefix sub s ||
  match s with
  | EmptyString => false
  | String _ s' => str_contains sub s'
  end.

(** [key in v], where [key] is a string *)
Definition contains (key : string) (v : json) : result bool :=
  match v with
  | JStr s => Ok (str_contains key s)
  | JList l =>
      Ok (existsb (fun x => match x with JStr s => String.eqb s key | _ => false end) l)
  | JDict m => Ok (bool_decide (is_Some (m !! key)))
  | JNull | JBool _ | JInt _ | JFloat _ => Raise TypeError
  end.

(** [v[key]], where [key] is a string *)
Definition getitem_str (v : json) (key : string) : result json :=
  match v with
  | JDict m => match m !! key with Some x => Ok x | None => Raise KeyError end
  | _ => Raise TypeError
  end.

(** [len(v)] *)
Definition len (v : json) : result nat :=
  match v with
  | JStr s => Ok (String.length s)
  | JList l => Ok (length l)
  | JDict m => Ok (size m)
  | JNull | JBool _ | JInt _ | JFloat _ => Raise TypeError
  end.

(** [v[0]]; the keys of a dict are strings, so [0] is never one of them *)
Definition getitem_0 (v : json) : result json :=
  match v with
  | JStr (String c _) => Ok (JStr (String c EmptyString))
  | JStr EmptyString => Raise IndexError
  | JList (x :: _) => Ok x
  | JList [] => Raise IndexError
  | JDict _ => Raise KeyError
  | JNull | JBool _ | JInt _ | JFloat _ => Raise TypeError
  end.

(** [d.get(key)] and [d.get(key, default)] *)
Definition dict_get (d : gmap string json) (key : string) : json :=
  default JNull (d !! key).
Definition dict_get_default (d : gmap string json) (key : string) (dflt : json) : json :=
  default dflt (d !! key).

(** [str.lower()] on the code points 0..255: the upper-case letters are
    A-Z, and 0xC0-0xDE without the multiplication sign 0xD7. *)
Definition lower_char (c : ascii) : ascii :=
  let n := nat_of_ascii c in
  if (((65 <=? n) && (n <=? 90)) ||
      ((192 <=? n) && (n <=? 222) && negb (n =? 215)))%nat
  then ascii_of_nat (n + 32) else c.

Fixpoint lower (s : string) : string :=
  match s with
  | EmptyString => EmptyString
  | String c s' => String (lower_char c) (lower s')
  end.

(** [c.isspace()] on the code points 0..255 *)
Definition is_space (c : ascii) : bool :=
  let n := nat_of_ascii c in
  (((9 <=? n) && (n <=? 13)) || ((28 <=? n) && (n <=? 32)) ||
   (n =? 133) || (n =? 160))%nat.

Fixpoint lstrip (s : string) : string :=
  match s with
  | EmptyString => EmptyString
  | String c s' => if is_space c then lstrip s' else s
  end.

Fixpoint rstrip (s : string) : string :=
  match s with
  | EmptyString => EmptyString
  | String c s' =>
      match rstrip s' with
      | EmptyString => if is_space c then EmptyString else String c EmptyString
      | r => String c r
      end
  end.

(** [str.strip()] *)
Definition strip (s : string) : string := rstrip (lstrip s).

(** [s.replace("Z", "+00:00")] *)
Fixpoint replace_Z (s : string) : string :=
  match s with
  | EmptyString => EmptyString
  | String c s' =>
      if Ascii.eqb c "Z"%char then "+00:00" ++ replace_Z s'
      else String c (replace_Z s')
  end.

(** [s.split(":", 1)[0]]: the part before the first colon, the whole
    string when it has none *)
Fixpoint before_colon (s : string) : string :=
  match s with
  | EmptyString => EmptyString
  | String c s' =>
      if Ascii.eqb c ":"%char then EmptyString else String c (before_colon s')
  end.

(** [d.get(k)] for a dict literal [d] with string keys *)
Fixpoint literal_get {V} (d : list (string * V)) (k : string) : option V :=
  match d with
  | [] => None
  | (k', v) :: d' => if String.eqb k' k then Some v else literal_get d' k
  end.

(** An insertion-ordered [dict]: [d[k] = v] keeps the position of a key
    that is already present, and appends a new key. *)
Fixpoint odict_set {V} (d : list (string * V)) (k : string) (v : V) : list (string * V) :=
  match d with
  | [] => [(k, v)]
  | (k', v') :: d' =>
      if String.eqb k' k then (k', v) :: d' else (k', v') :: odict_set d' k v
  end.

(** [s.split(":", 1)[1]] for a string [s] that has a colon: the part after
    the first colon *)
Fixpoint after_colon (s : string) : string :=
  match s with
  | EmptyString => EmptyString
  | String c s' => if Ascii.eqb c ":"%char then s' else after_colon s'
  end.

(** [s.split(sep)] for a non-empty separator: [cur] is the part being read,
    [skip] the number of characters of a separator still to pass over. *)
Fixpoint split_from (sep : string) (skip : nat) (cur : string) (s : string)
    : list string :=
  match s with
  | EmptyString => [cur]
  | String c s' =>
      match skip with
      | S skip' => split_from sep skip' cur s'
      | O =>
          if String.prefix sep s
          then cur :: split_from sep (String.length sep - 1) EmptyString s'
          else split_from sep 0 (cur ++ String c EmptyString) s'
      end
  end.

Definition split (sep : string) (s : string) : list string :=
  split_from sep 0 EmptyString s.

(** [l.index(x)] for a list of strings that holds [x]; [None] is the
    [ValueError] of a list that does not *)
Fixpoint index_of (x : string) (l : list string) : option nat :=
  match l with
  | [] => None
  | y :: l' => if String.eqb y x then Some 0 else S <$> index_of x l'
  end.

End Py.

Export Py.

Notation "'let*' x := r 'in' k" := (Py.bind r (fun x => k))
  (at level 10, x name, r at level 100, k at level 200).

(* ================================================================== *)
(** * The data model ([ocsf_models.py]) *)
(* ================================================================== *)

Module Provider.
(** [Literal["aws", "gcp", "azure"]] *)
Inductive t : Type := aws | gcp | azure.
Definition name (p : t) : string :=
  match p with aws => "aws" | gcp => "gcp" | azure => "azure" end.
End Provider.

Module Severity.
(** [Literal["critical", "high", "medium", "low", "informational"]] *)
Inductive t : Type := critical | high | medium | low | informational.
Definition name (s : t) : string :=
  match s with
  | critical => "critical" | high => "high" | medium => "medium"
  | low => "low" | informational => "informational"
  end.
(** pydantic's validation of a string against the literal type *)
Definition validate (s : string) : option t :=
  if String.eqb s "critical" then Some critical
  else if String.eqb s "high" then Some high
  else if String.eqb s "medium" then Some medium
  else if String.eqb s "low" then Some low
  else if String.eqb s "informational" then Some informational
  else None.
End Severity.

Module Status.
(** [Literal["pass", "fail", "not_applicable", "informational"]] *)
Inductive t : Type := pass | fail | not_applicable | informational.
Definition name (s : t) : string :=
  match s with
  | pass => "pass" | fail => "fail" | not_applicable => "not_applicable"
  | informational => "informational"
  end.
End Status.

(** [class OCSFFinding]: the declared fields. The model configuration
    [extra="allow"] lets an instance carry undeclared attributes as well;
    the findings of this development carry none. *)
Module OCSFFinding.
Record t : Type := {
  time : datetime;
  provider : Provider.t;
  product : string;
  class_uid : option Z;
  class_name : option string;
  severity : option Severity.t;
  status : option Status.t;
  resource_id : option string;
  account_id : option string;
  region : option string;
  check_id : option string;
  title : option string;
  description : option string;
  remediation : option string;
  raw : gmap string json
}.

Definition with_severity (f : t) (s : option Severity.t) : t :=
  {| time := time f; provider := provider f; product := product f;
     class_uid := class_uid f; class_name := class_name f;
     severity := s; status := status f;
     resource_id := resource_id f; account_id := account_id f;
     region := region f; check_id := check_id f; title := title f;
     description := description f; remediation := remediation f;
     raw := raw f |}.
End OCSFFinding.

Module OCSFResource.
Record t : Type := {
  uid : option string;
  type : option string;
  region : option string;
  name : option string;
  tags : gmap string string
}.
End OCSFResource.

Module OCSFCloud.
Record t : Type := {
  provider : Provider.t;
  account_uid : option string;
  region : option string;
  availability_zone : option string
}.
End OCSFCloud.

Module OCSFCompliance.
Record t : Type := {
  requirements : list string;
  frameworks : list string
}.
End OCSFCompliance.

(** [class OCSFEnrichedFinding(OCSFFinding)]: the inherited fields are the
    component [base], the fields that the subclass adds follow. *)
Module OCSFEnrichedFinding.
Record t : Type := {
  base : OCSFFinding.t;
  resource : option OCSFResource.t;
  cloud : option OCSFCloud.t;
  compliance : option OCSFCompliance.t;
  framework_refs : list string;
  risk_score : option pyfloat;
  tags : gmap string string
}.

(** The enriched finding built from [finding.model_dump()]: the added
    fields take their defaults. *)
Definition of_finding (f : OCSFFinding.t) : t :=
  {| base := f; resource := None; cloud := None; compliance := None;
     framework_refs := []; risk_score := None; tags := ∅ |}.

Definition severity (e : t) : option Severity.t := OCSFFinding.severity (base e).

(** [e.severity = s], once [s] has passed the validation that
    [validate_assignment=True] asks for *)
Definition with_severity (e : t) (s : option Severity.t) : t :=
  {| base := OCSFFinding.with_severity (base e) s;
     resource := resource e; cloud := cloud e; compliance := compliance e;
     framework_refs := framework_refs e; risk_score := risk_score e;
     tags := tags e |}.

(** [e.framework_refs = refs] *)
Definition with_framework_refs (e : t) (refs : list string) : t :=
  {| base := base e;
     resource := resource e; cloud := cloud e; compliance := compliance e;
     framework_refs := refs; risk_score := risk_score e;
     tags := tags e |}.
End OCSFEnrichedFinding.

Module FindingSummary.
Record t : Type := {
  total_findings : nat;
  by_severity : gmap string nat;
  by_status : gmap string nat;
  by_provider : gmap string nat;
  by_product : gmap string nat;
  frameworks_covered : list string;
  scan_time_range : option datetime * option datetime;
  unique_resources : nat;
  unique_accounts : nat
}.
End FindingSummary.

(* ================================================================== *)
(** * The normaliser ([parser.py]) *)
(* ================================================================== *)

Module Parser.
Section Parser.
Context `{PyEnv}.

Definition severity_map : list (string * Severity.t) :=
  [ ("critical", Severity.critical);
    ("crit", Severity.critical);
    ("high", Severity.high);
    ("medium", Severity.medium);
    ("med", Severity.medium);
    ("moderate", Severity.medium);
    ("low", Severity.low);
    ("info", Severity.informational);
    ("informational", Severity.informational);
    ("information", Severity.informational);
    ("notice", Severity.informational) ].

Definition _normalize_severity (severity : json) : option Severity.t :=
  if negb (truthy severity) then None
  else
    let severity_str := strip (lower (str severity)) in
    literal_get severity_map severity_str.

Definition status_map : list (string * Status.t) :=
  [ ("pass", Status.pass);
    ("passed", Status.pass);
    ("success", Status.pass);
    ("ok", Status.pass);
    ("fail", Status.fail);
    ("failed", Status.fail);
    ("failure", Status.fail);
    ("error", Status.fail);
    ("not_applicable", Status.not_applicable);
    ("n/a", Status.not_applicable);
    ("na", Status.not_applicable);
    ("skip", Status.not_applicable);
    ("skipped", Status.not_applicable);
    ("info", Status.informational);
    ("informational", Status.informational);
    ("information", Status.informational) ].

Definition _normalize_status (status : json) : option Status.t :=
  if negb (truthy status) then None
  else
    let status_str := strip (lower (str status)) in
    literal_get status_map status_str.

(** The result [None] of the Python function is [JNull]. *)
Fixpoint _get_nested_value (current : json) (keys : list string) : json :=
  match keys with
  | [] => current
  | key :: keys' =>
      match current with
      | JDict m =>
          match m !! key with
          | Some v => _get_nested_value v keys'
          | None => JNull
          end
      | _ => JNull
      end
  end.

(** The loop that ends each extraction function:
    [for location in locations: value = _get_nested_value(raw_finding, location);
     if value: return str(value)], then [return None]. *)
Fixpoint search_locations (raw_finding : gmap string json)
    (locations : list (list string)) : option string :=
  match locations with
  | [] => None
  | location :: locations' =>
      let value := _get_nested_value (JDict raw_finding) location in
      if truthy value then Some (str value)
      else search_locations raw_finding locations'
  end.

Definition resource_id_locations : list (list string) :=
  [ ["resource"; "uid"]; ["resource"; "id"]; ["resource_uid"];
    ["resource_id"]; ["arn"]; ["resource_arn"] ].

Definition _extract_resource_id (raw_finding : gmap string json)
    : result (option string) :=
  let resources := dict_get_default raw_finding "resources" (JList []) in
  let* found :=
    (if truthy resources then
       let* n := len resources in
       if (0 <? n)%nat then
         let* first_resource := getitem_0 resources in
         let* has_uid := contains "uid" first_resource in
         if has_uid then
           let* v := getitem_str first_resource "uid" in Ok (Some (str v))
         else
           let* has_name := contains "name" first_resource in
           if has_name then
             let* v := getitem_str first_resource "name" in Ok (Some (str v))
           else Ok None
       else Ok None
     else Ok None) in
  match found with
  | Some s => Ok (Some s)
  | None => Ok (search_locations raw_finding resource_id_locations)
  end.

Definition account_id_locations : list (list string) :=
  [ ["cloud"; "account"; "uid"]; ["cloud"; "account"; "id"];
    ["account_uid"]; ["account_id"]; ["account"] ].

Definition _extract_account_id (raw_finding : gmap string json)
    : result (option string) :=
  let resources := dict_get_default raw_finding "resources" (JList []) in
  let* found :=
    (if truthy resources then
       let* n := len resources in
       if (0 <? n)%nat then
         let* first_resource := getitem_0 resources in
         let* has_uid := contains "account_uid" first_resource in
         if has_uid then
           let* v := getitem_str first_resource "account_uid" in Ok (Some (str v))
         else Ok None
       else Ok None
     else Ok None) in
  match found with
  | Some s => Ok (Some s)
  | None => Ok (search_locations raw_finding account_id_locations)
  end.

Definition region_locations : list (list string) :=
  [ ["cloud"; "region"]; ["resource"; "region"]; ["region"] ].

Definition _extract_region (raw_finding : gmap string json)
    : result (option string) :=
  let resources := dict_get_default raw_finding "resources" (JList []) in
  let* found :=
    (if truthy resources then
       let* n := len resources in
       if (0 <? n)%nat then
         let* first_resource := getitem_0 resources in
         let* has_region := contains "region" first_resource in
         if has_region then
           let* v := getitem_str first_resource "region" in Ok (Some (str v))
         else Ok None
       else Ok None
     else Ok None) in
  match found with
  | Some s => Ok (Some s)
  | None => Ok (search_locations raw_finding region_locations)
  end.

Definition check_id_locations : list (list string) :=
  [ ["finding"; "uid"]; ["finding"; "id"]; ["check_id"]; ["rule_id"];
    ["uid"]; ["id"] ].

Definition _extract_check_id (raw_finding : gmap string json) : option string :=
  search_locations raw_finding check_id_locations.

Definition title_locations : list (list string) :=
  [ ["finding"; "title"]; ["title"]; ["summary"]; ["name"] ].

Definition _extract_title (raw_finding : gmap string json) : option string :=
  search_locations raw_finding title_locations.

Definition description_locations : list (list string) :=
  [ ["finding"; "desc"]; ["finding"; "description"]; ["description"];
    ["desc"]; ["message"] ].

Definition _extract_description (raw_finding : gmap string json) : option string :=
  search_locations raw_finding description_locations.

Definition remediation_locations : list (list string) :=
  [ ["finding"; "remediation"; "desc"];
    ["finding"; "remediation"; "description"];
    ["remediation"; "desc"]; ["remediation"; "description"];
    ["remediation"]; ["recommendation"]; ["fix"] ].

Definition _extract_remediation (raw_finding : gmap string json) : option string :=
  search_locations raw_finding remediation_locations.

(** pydantic's validation of the field [class_uid: int | None] *)
Definition validate_class_uid (v : json) : result (option Z) :=
  match v with
  | JNull => Ok None
  | JInt n => Ok (Some n)
  | _ => match coerce_int v with
         | Some n => Ok (Some n)
         | None => Raise ValidationError
         end
  end.

(** pydantic's validation of the field [class_name: str | None] *)
Definition validate_class_name (v : json) : result (option string) :=
  match v with
  | JNull => Ok None
  | JStr s => Ok (Some s)
  | _ => Raise ValidationError
  end.

(** [now] is what [datetime.now(timezone.utc)] returns during the call. *)
Definition _parse_single_finding (raw_finding : gmap string json)
    (provider : Provider.t) (product : string) (now : datetime)
    : result OCSFFinding.t :=
  let time_str := dict_get raw_finding "time" in
  let time :=
    if truthy time_str then
      match time_str with
      | JStr s =>
          match fromisoformat (replace_Z s) with
          | Some t => t
          | None => now
          end
      | _ => now
      end
    else now in
  let class_uid := dict_get raw_finding "class_uid" in
  let class_name := dict_get raw_finding "class_name" in
  let severity := _normalize_severity (dict_get raw_finding "severity") in
  let status := _normalize_status (dict_get raw_finding "status") in
  let* resource_id := _extract_resource_id raw_finding in
  let* account_id := _extract_account_id raw_finding in
  let* region := _extract_region raw_finding in
  let check_id := _extract_check_id raw_finding in
  let title := _extract_title raw_finding in
  let description := _extract_description raw_finding in
  let remediation := _extract_remediation raw_finding in
  let* class_uid := validate_class_uid class_uid in
  let* class_name := validate_class_name class_name in
  Ok {| OCSFFinding.time := time;
        OCSFFinding.provider := provider;
        OCSFFinding.product := product;
        OCSFFinding.class_uid := class_uid;
        OCSFFinding.class_name := class_name;
        OCSFFinding.severity := severity;
        OCSFFinding.status := status;
        OCSFFinding.resource_id := resource_id;
        OCSFFinding.account_id := account_id;
        OCSFFinding.region := region;
        OCSFFinding.check_id := check_id;
        OCSFFinding.title := title;
        OCSFFinding.description := description;
        OCSFFinding.remediation := remediation;
        OCSFFinding.raw := raw_finding |}.

(** What [parse_ocsf] finds at [path]. *)
Inductive json_file : Type :=
  | NoFile
  | InvalidJson
  | Json (data : json).

(** The loop of [parse_ocsf] over [enumerate(data)], from index [i] on;
    [clock i] is the time during the processing of the record [i]. *)
Fixpoint parse_records (i : nat) (data : list json) (provider : Provider.t)
    (product : string) (clock : nat -> datetime) : result (list OCSFFinding.t) :=
  match data with
  | [] => Ok []
  | raw_finding :: data' =>
      match raw_finding with
      | JDict m =>
          match _parse_single_finding m provider product (clock i) with
          | Ok finding =>
              let* findings := parse_records (S i) data' provider product clock in
              Ok (finding :: findings)
          | Raise _ => Raise ValueError
          end
      | _ => Raise ValueError
      end
  end.

Definition parse_ocsf (path : json_file) (provider : Provider.t)
    (product : string) (clock : nat -> datetime) : result (list OCSFFinding.t) :=
  match path with
  | NoFile => Raise FileNotFoundError
  | InvalidJson => Raise JSONDecodeError
  | Json (JDict m) => parse_records 0 [JDict m] provider product clock
  | Json (JList l) => parse_records 0 l provider product clock
  | Json _ => Raise ValueError
  end.

End Parser.
End Parser.

(* ================================================================== *)
(** * Compliance mappings ([mapping.py]) *)
(* ================================================================== *)

Module MappingRule.
Record t : Type := {
  source : string;
  target : string;
  title : string;
  description : string;
  severity : option string
}.
End MappingRule.

Module MappingCategory.
Record t : Type := {
  id : string;
  name : string;
  controls : list string
}.
End MappingCategory.

Module MappingMetadata.
(** [extra="allow"]: the undeclared keys are kept, in [extra]. *)
Record t : Type := {
  created_date : option string;
  updated_date : option string;
  author : option string;
  source_url : option string;
  tags : list string;
  extra : gmap string json
}.
End MappingMetadata.

Module ComplianceMapping.
Record t : Type := {
  map_id : string;
  name : string;
  version : string;
  description : string;
  framework_type : string;
  provider : option string;
  rules : list MappingRule.t;
  categories : list MappingCategory.t;
  metadata : option MappingMetadata.t
}.
End ComplianceMapping.

(** pydantic's validation of the four models, on the data that
    [yaml.safe_load] returns. A field of type [str] accepts a string only;
    [None] is the validation error. *)
Module Validate.

(** a required field of type [str] *)
Definition required_str (d : gmap string json) (k : string) : option string :=
  match d !! k with
  | Some (JStr s) => Some s
  | _ => None
  end.

(** a field of type [str | None] with the default [None] *)
Definition optional_str (d : gmap string json) (k : string)
    : option (option string) :=
  match d !! k with
  | None | Some JNull => Some None
  | Some (JStr s) => Some (Some s)
  | Some _ => None
  end.

(** a value of type [list[str]] *)
Definition str_list (v : json) : option (list string) :=
  match v with
  | JList l => mapM (fun x => match x with JStr s => Some s | _ => None end) l
  | _ => None
  end.

(** [extra="forbid"]: every key of the data is a declared field *)
Definition no_extra (fields : list string) (d : gmap string json) : bool :=
  bool_decide (dom d ⊆ (list_to_set fields : gset string)).

Definition mapping_rule (v : json) : option MappingRule.t :=
  match v with
  | JDict d =>
      if no_extra ["source"; "target"; "title"; "description"; "severity"] d then
        source ← required_str d "source";
        target ← required_str d "target";
        title ← required_str d "title";
        description ← required_str d "description";
        severity ← optional_str d "severity";
        Some {| MappingRule.source := source;
                MappingRule.target := target;
                MappingRule.title := title;
                MappingRule.description := description;
                MappingRule.severity := severity |}
      else None
  | _ => None
  end.

Definition mapping_category (v : json) : option MappingCategory.t :=
  match v with
  | JDict d =>
      if no_extra ["id"; "name"; "controls"] d then
        id ← required_str d "id";
        name ← required_str d "name";
        controls ← d !! "controls" ≫= str_list;
        Some {| MappingCategory.id := id;
                MappingCategory.name := name;
                MappingCategory.controls := controls |}
      else None
  | _ => None
  end.

Definition mapping_metadata (v : json) : option MappingMetadata.t :=
  match v with
  | JDict d =>
      created_date ← optional_str d "created_date";
      updated_date ← optional_str d "updated_date";
      author ← optional_str d "author";
      source_url ← optional_str d "source_url";
      tags ← match d !! "tags" with
             | None => Some []
             | Some v => str_list v
             end;
      Some {| MappingMetadata.created_date := created_date;
              MappingMetadata.updated_date := updated_date;
              MappingMetadata.author := author;
              MappingMetadata.source_url := source_url;
              MappingMetadata.tags := tags;
              MappingMetadata.extra :=
                filter (fun kv => kv.1 ∉ ["created_date"; "updated_date";
                                          "author"; "source_url"; "tags"]) d |}
  | _ => None
  end.

Definition compliance_mapping_fields : list string :=
  ["map_id"; "name"; "version"; "description"; "framework_type";
   "provider"; "rules"; "categories"; "metadata"].

(** The constructor [ComplianceMapping] applied to the keys of [data]. *)
Definition compliance_mapping (data : gmap string json)
    : option ComplianceMapping.t :=
  if no_extra compliance_mapping_fields data then
    map_id ← required_str data "map_id";
    name ← required_str data "name";
    version ← required_str data "version";
    description ← required_str data "description";
    framework_type ← required_str data "framework_type";
    provider ← optional_str data "provider";
    rules ← match data !! "rules" with
            | Some (JList l) => mapM mapping_rule l
            | _ => None
            end;
    categories ← match data !! "categories" with
                 | None => Some []
                 | Some (JList l) => mapM mapping_category l
                 | Some _ => None
                 end;
    metadata ← match data !! "metadata" with
               | None | Some JNull => Some None
               | Some v => Some <$> mapping_metadata v
               end;
    Some {| ComplianceMapping.map_id := map_id;
            ComplianceMapping.name := name;
            ComplianceMapping.version := version;
            ComplianceMapping.description := description;
            ComplianceMapping.framework_type := framework_type;
            ComplianceMapping.provider := provider;
            ComplianceMapping.rules := rules;
            ComplianceMapping.categories := categories;
            ComplianceMapping.metadata := metadata |}
  else None.

End Validate.

Module Mapping.

(** What [load_mapping] finds at [<map_id>.yaml] when the file exists. *)
Inductive yaml_file : Type :=
  | Unreadable
  | InvalidYaml
  | Yaml (data : json).

Record control_info : Type := {
  framework : string;
  control : string;
  title : string;
  description : string;
  severity_override : option string
}.

Section Mapping.
Context `{PyEnv}.

(** The mappings directory: the file found for each [map_id] that has one.
    A directory that does not exist is the empty map. *)
Implicit Type dir : gmap string yaml_file.

Definition list_available_mappings dir : list string :=
  merge_sort String.leb (elements (dom dir)).

Definition load_mapping dir (map_id : string) : result ComplianceMapping.t :=
  match dir !! map_id with
  | None =>
      let available := list_available_mappings dir in
      Raise (MappingNotFoundError
               ("Mapping '" ++ map_id ++ "' not found. Available mappings: "
                ++ repr_str_list available))
  | Some Unreadable => Raise MappingLoadError
  | Some InvalidYaml => Raise MappingLoadError
  | Some (Yaml (JDict data)) =>
      match Validate.compliance_mapping data with
      | Some mapping => Ok mapping
      | None => Raise MappingLoadError
      end
  | Some (Yaml _) => Raise MappingLoadError
  end.

(** [for map_id in map_ids: mappings[map_id] = load_mapping(map_id)] *)
Fixpoint load_mappings dir (map_ids : list string)
    (mappings : list (string * ComplianceMapping.t))
    : result (list (string * ComplianceMapping.t)) :=
  match map_ids with
  | [] => Ok mappings
  | map_id :: map_ids' =>
      let* mapping := load_mapping dir map_id in
      load_mappings dir map_ids' (odict_set mappings map_id mapping)
  end.

(** The body of the loop over [mapping.rules]. *)
Definition add_rule (map_id : string)
    (check_to_controls : gmap string (list control_info))
    (rule : MappingRule.t) : gmap string (list control_info) :=
  let source_key := MappingRule.source rule in
  let check_to_controls :=
    match check_to_controls !! source_key with
    | None => <[source_key := []]> check_to_controls
    | Some _ => check_to_controls
    end in
  <[source_key :=
      (default [] (check_to_controls !! source_key) ++
       [ {| framework := map_id;
            control := MappingRule.target rule;
            title := MappingRule.title rule;
            description := MappingRule.description rule;
            severity_override := MappingRule.severity rule |} ])%list]>
    check_to_controls.

Definition build_check_to_controls
    (mappings : list (string * ComplianceMapping.t))
    : gmap string (list control_info) :=
  foldl (fun check_to_controls entry =>
           foldl (add_rule entry.1) check_to_controls
                 (ComplianceMapping.rules entry.2))
        ∅ mappings.

(** The truth value of a [str | None]. *)
Definition override_truthy (o : option string) : bool :=
  match o with
  | Some s => negb (String.eqb s "")
  | None => false
  end.

(** [enriched_finding.severity = override]: [validate_assignment=True]
    validates the string against the literal type of the field. *)
Definition assign_severity (enriched_finding : OCSFEnrichedFinding.t)
    (override : option string) : result OCSFEnrichedFinding.t :=
  match override with
  | None => Ok (OCSFEnrichedFinding.with_severity enriched_finding None)
  | Some s =>
      match Severity.validate s with
      | Some sev => Ok (OCSFEnrichedFinding.with_severity enriched_finding (Some sev))
      | None => Raise ValidationError
      end
  end.

(** The loop over [check_to_controls[source_key]]. *)
Fixpoint apply_controls (controls : list control_info)
    (framework_refs : list string) (enriched_finding : OCSFEnrichedFinding.t)
    : result (list string * OCSFEnrichedFinding.t) :=
  match controls with
  | [] => Ok (framework_refs, enriched_finding)
  | control_info :: controls' =>
      let framework_refs :=
        (framework_refs ++
         [(framework control_info ++ ":" ++ control control_info)%string])%list in
      let* enriched_finding :=
        (if override_truthy (severity_override control_info)
            && negb (bool_decide (is_Some (OCSFEnrichedFinding.severity enriched_finding)))
         then assign_severity enriched_finding (severity_override control_info)
         else Ok enriched_finding) in
      apply_controls controls' framework_refs enriched_finding
  end.

(** The body of the loop over [findings]. *)
Definition enrich_finding (check_to_controls : gmap string (list control_info))
    (finding : OCSFFinding.t) : result OCSFEnrichedFinding.t :=
  let enriched_finding := OCSFEnrichedFinding.of_finding finding in
  match OCSFFinding.check_id finding with
  | Some check_id =>
      if negb (String.eqb check_id "") then
        let source_key := OCSFFinding.product finding ++ ":" ++ check_id in
        match check_to_controls !! source_key with
        | Some controls =>
            let* r := apply_controls controls [] enriched_finding in
            Ok (OCSFEnrichedFinding.with_framework_refs r.2 r.1)
        | None => Ok enriched_finding
        end
      else Ok enriched_finding
  | None => Ok enriched_finding
  end.

Fixpoint enrich_findings (check_to_controls : gmap string (list control_info))
    (findings : list OCSFFinding.t) : result (list OCSFEnrichedFinding.t) :=
  match findings with
  | [] => Ok []
  | finding :: findings' =>
      let* enriched_finding := enrich_finding check_to_controls finding in
      let* enriched_findings := enrich_findings check_to_controls findings' in
      Ok (enriched_finding :: enriched_findings)
  end.

Definition apply_mapping dir (findings : list OCSFFinding.t)
    (map_ids : list string) : result (list OCSFEnrichedFinding.t) :=
  let* mappings := load_mappings dir map_ids [] in
  let check_to_controls := build_check_to_controls mappings in
  enrich_findings check_to_controls findings.

(** [sorted(set(l))] for a list of strings *)
Definition sorted_distinct (l : list string) : list string :=
  merge_sort String.leb (elements (list_to_set l : gset string)).

Definition get_framework_controls dir (map_id : string)
    : result (gmap string (list string)) :=
  let* mapping := load_mapping dir map_id in
  let controls_by_category : gmap string (list string) :=
    foldl (fun controls_by_category category =>
             <[MappingCategory.name category :=
                 MappingCategory.controls category]> controls_by_category)
          ∅ (ComplianceMapping.categories mapping) in
  if dict_is_empty controls_by_category then
    let all_controls := map MappingRule.target (ComplianceMapping.rules mapping) in
    Ok (<["All Controls" := sorted_distinct all_controls]> controls_by_category)
  else Ok controls_by_category.

(** The three messages of [validate_mapping_file], without the text of the
    path or of the exception that they end with. *)
Inductive validation_message : Type :=
  | FileDoesNotExist
  | YamlParsingError
  | ValidationFailure.

(** [mapping_file] is what is found at the path: [None] when the path does
    not exist. The constructor of [ComplianceMapping] is applied to the data
    whatever it is, and fails on data that is not a mapping. *)
Definition validate_mapping_file (mapping_file : option yaml_file)
    : bool * list validation_message :=
  match mapping_file with
  | None => (false, [FileDoesNotExist])
  | Some Unreadable => (false, [ValidationFailure])
  | Some InvalidYaml => (false, [YamlParsingError])
  | Some (Yaml (JDict data)) =>
      match Validate.compliance_mapping data with
      | Some _ => (true, [])
      | None => (false, [ValidationFailure])
      end
  | Some (Yaml _) => (false, [ValidationFailure])
  end.

End Mapping.
End Mapping.

(* ================================================================== *)
(** * Rollups and summaries ([summarize.py]) *)
(* ================================================================== *)

Module Summarize.

(** An element of a [list[OCSFFinding | OCSFEnrichedFinding]]. *)
Inductive finding : Type :=
  | Plain (f : OCSFFinding.t)
  | Enriched (e : OCSFEnrichedFinding.t).

(** The inherited fields of either kind of finding. *)
Definition fields (x : finding) : OCSFFinding.t :=
  match x with
  | Plain f => f
  | Enriched e => OCSFEnrichedFinding.base e
  end.

(** [hasattr(finding, 'framework_refs')] *)
Definition has_framework_refs (x : finding) : bool :=
  match x with
  | Plain _ => false
  | Enriched _ => true
  end.

(** [finding.framework_refs], read only after the [hasattr] test *)
Definition framework_refs (x : finding) : list string :=
  match x with
  | Plain _ => []
  | Enriched e => OCSFEnrichedFinding.framework_refs e
  end.

(** [counter[k] += 1] on a [Counter] *)
Definition counter_incr (counter : gmap string nat) (k : string) : gmap string nat :=
  <[k := default 0 (counter !! k) + 1]> counter.

Definition severity_counts (findings : list finding) : gmap string nat :=
  foldl (fun severity_counter x =>
           let severity :=
             match OCSFFinding.severity (fields x) with
             | Some s => Severity.name s
             | None => "unknown"
             end in
           counter_incr severity_counter severity)
        ∅ findings.

Definition status_counts (findings : list finding) : gmap string nat :=
  foldl (fun status_counter x =>
           let status :=
             match OCSFFinding.status (fields x) with
             | Some s => Status.name s
             | None => "unknown"
             end in
           counter_incr status_counter status)
        ∅ findings.

Definition provider_counts (findings : list finding) : gmap string nat :=
  foldl (fun provider_counter x =>
           counter_incr provider_counter
             (Provider.name (OCSFFinding.provider (fields x))))
        ∅ findings.

Definition product_counts (findings : list finding) : gmap string nat :=
  foldl (fun product_counter x =>
           counter_incr product_counter (OCSFFinding.product (fields x)))
        ∅ findings.

(** [a < b] on two [datetime]s: an offset-naive and an offset-aware one do
    not compare. *)
Definition datetime_lt (a b : datetime) : result bool :=
  if Bool.eqb (aware a) (aware b) then Ok (instant a <? instant b)%Z
  else Raise TypeError.

(** [min(best :: rest)] and [max(best :: rest)] *)
Fixpoint min_from (best : datetime) (rest : list datetime) : result datetime :=
  match rest with
  | [] => Ok best
  | x :: rest' =>
      let* smaller := datetime_lt x best in
      min_from (if smaller then x else best) rest'
  end.

Fixpoint max_from (best : datetime) (rest : list datetime) : result datetime :=
  match rest with
  | [] => Ok best
  | x :: rest' =>
      let* greater := datetime_lt best x in
      max_from (if greater then x else best) rest'
  end.

(** A [datetime] is always true, so [timestamps] keeps every finding. *)
Definition time_range_analysis (findings : list finding)
    : result (option datetime * option datetime) :=
  let timestamps := map (fun x => OCSFFinding.time (fields x)) findings in
  match timestamps with
  | [] => Ok (None, None)
  | t :: ts =>
      let* start := min_from t ts in
      let* end_ := max_from t ts in
      Ok (Some start, Some end_)
  end.

(** The truth value of a [str | None]. *)
Definition str_truthy (o : option string) : bool :=
  match o with
  | Some s => negb (String.eqb s "")
  | None => false
  end.

(** The keys ["unique_resources"] and ["unique_accounts"] of the result of
    [unique_resource_analysis]; [generate_finding_summary] reads no other
    key of it. *)
Definition unique_resource_analysis (findings : list finding) : nat * nat :=
  let unique_resources : gset string :=
    foldl (fun acc x =>
             match OCSFFinding.resource_id (fields x) with
             | Some r => if str_truthy (Some r) then {[r]} ∪ acc else acc
             | None => acc
             end) ∅ findings in
  let unique_accounts : gset string :=
    foldl (fun acc x =>
             match OCSFFinding.account_id (fields x) with
             | Some a => if str_truthy (Some a) then {[a]} ∪ acc else acc
             | None => acc
             end) ∅ findings in
  (size unique_resources, size unique_accounts).

(** The loop over [finding.framework_refs] that fills the set. *)
Definition add_frameworks (framework_refs_set : gset string) (refs : list string)
    : gset string :=
  foldl (fun acc ref =>
           if str_contains ":" ref then {[before_colon ref]} ∪ acc else acc)
        framework_refs_set refs.

(** [sorted(s)] for a set of strings *)
Definition sorted (s : gset string) : list string :=
  merge_sort String.leb (elements s).

(** The first block of [generate_finding_summary]. *)
Definition frameworks_covered_of (findings : list finding) : list string :=
  match findings with
  | first :: _ =>
      if has_framework_refs first then
        sorted
          (foldl (fun acc x =>
                    if has_framework_refs x
                       && match framework_refs x with [] => false | _ :: _ => true end
                    then add_frameworks acc (framework_refs x)
                    else acc)
                 ∅ findings)
      else []
  | [] => []
  end.

Definition generate_finding_summary (findings : list finding)
    : result FindingSummary.t :=
  let frameworks_covered := frameworks_covered_of findings in
  let* time_range := time_range_analysis findings in
  let resource_analysis := unique_resource_analysis findings in
  Ok {| FindingSummary.total_findings := length findings;
        FindingSummary.by_severity := severity_counts findings;
        FindingSummary.by_status := status_counts findings;
        FindingSummary.by_provider := provider_counts findings;
        FindingSummary.by_product := product_counts findings;
        FindingSummary.frameworks_covered := frameworks_covered;
        FindingSummary.scan_time_range := time_range;
        FindingSummary.unique_resources := resource_analysis.1;
        FindingSummary.unique_accounts := resource_analysis.2 |}.

(** The result of [framework_score]: a dict with these five keys. *)
Module Score.
Record t : Type := {
  pass : nat;
  fail : nat;
  warn : nat;
  unknown : nat;
  total : nat
}.
End Score.

(** The test of the first loop of [framework_score]: the finding has a
    reference that starts with [framework_prefix + ":"]. *)
Definition in_framework (framework_prefix : string) (x : finding) : bool :=
  has_framework_refs x
  && match framework_refs x with [] => false | _ :: _ => true end
  && existsb (fun ref => String.prefix (framework_prefix ++ ":") ref)
             (framework_refs x).

Definition framework_score (findings : list finding) (framework_prefix : string)
    : Score.t :=
  let framework_findings := List.filter (in_framework framework_prefix) findings in
  let status_counter :=
    foldl (fun status_counter x =>
             let status :=
               match OCSFFinding.status (fields x) with
               | Some s => Status.name s
               | None => "unknown"
               end in
             counter_incr status_counter status)
          ∅ framework_findings in
  {| Score.pass := default 0 (status_counter !! "pass");
     Score.fail := default 0 (status_counter !! "fail");
     Score.warn := default 0 (status_counter !! "informational")
                   + default 0 (status_counter !! "not_applicable");
     Score.unknown := default 0 (status_counter !! "unknown");
     Score.total := length framework_findings |}.

(** The value that [by_provider] keeps for a provider while it loops. *)
Module ProviderData.
Record t : Type := {
  total : nat;
  by_severity : gmap string nat;
  by_status : gmap string nat;
  by_product : gmap string nat;
  unique_resources : gset string;
  unique_accounts : gset string
}.
(** The value that the [defaultdict] creates for a new provider. *)
Definition initial : t :=
  {| total := 0; by_severity := ∅; by_status := ∅; by_product := ∅;
     unique_resources := ∅; unique_accounts := ∅ |}.
End ProviderData.

(** The value of the result of [by_provider] for a provider. *)
Module ProviderBreakdown.
Record t : Type := {
  total : nat;
  by_severity : gmap string nat;
  by_status : gmap string nat;
  by_product : gmap string nat;
  unique_resources : nat;
  unique_accounts : nat
}.
End ProviderBreakdown.

Definition severity_label (x : finding) : string :=
  match OCSFFinding.severity (fields x) with
  | Some s => Severity.name s
  | None => "unknown"
  end.

Definition status_label (x : finding) : string :=
  match OCSFFinding.status (fields x) with
  | Some s => Status.name s
  | None => "unknown"
  end.

(** The body of the loop of [by_provider], on the value of the provider of
    the finding. *)
Definition provider_data_add (data : ProviderData.t) (x : finding)
    : ProviderData.t :=
  {| ProviderData.total := ProviderData.total data + 1;
     ProviderData.by_severity :=
       counter_incr (ProviderData.by_severity data) (severity_label x);
     ProviderData.by_status :=
       counter_incr (ProviderData.by_status data) (status_label x);
     ProviderData.by_product :=
       counter_incr (ProviderData.by_product data)
                    (OCSFFinding.product (fields x));
     ProviderData.unique_resources :=
       match OCSFFinding.resource_id (fields x) with
       | Some r => if str_truthy (Some r)
                   then {[r]} ∪ ProviderData.unique_resources data
                   else ProviderData.unique_resources data
       | None => ProviderData.unique_resources data
       end;
     ProviderData.unique_accounts :=
       match OCSFFinding.account_id (fields x) with
       | Some a => if str_truthy (Some a)
                   then {[a]} ∪ ProviderData.unique_accounts data
                   else ProviderData.unique_accounts data
       | None => ProviderData.unique_accounts data
       end |}.

Definition by_provider_step (provider_data : gmap string ProviderData.t)
    (x : finding) : gmap string ProviderData.t :=
  let provider := Provider.name (OCSFFinding.provider (fields x)) in
  let data := default ProviderData.initial (provider_data !! provider) in
  <[provider := provider_data_add data x]> provider_data.

Definition provider_breakdown (data : ProviderData.t) : ProviderBreakdown.t :=
  {| ProviderBreakdown.total := ProviderData.total data;
     ProviderBreakdown.by_severity := ProviderData.by_severity data;
     ProviderBreakdown.by_status := ProviderData.by_status data;
     ProviderBreakdown.by_product := ProviderData.by_product data;
     ProviderBreakdown.unique_resources := size (ProviderData.unique_resources data);
     ProviderBreakdown.unique_accounts := size (ProviderData.unique_accounts data) |}.

Definition by_provider (findings : list finding)
    : gmap string ProviderBreakdown.t :=
  provider_breakdown <$> foldl by_provider_step ∅ findings.

(** The value that [by_framework] keeps for a framework while it loops. *)
Module FrameworkData.
Record t : Type := {
  total : nat;
  by_severity : gmap string nat;
  by_status : gmap string nat;
  controls : gset string;
  findings : list finding
}.
Definition initial : t :=
  {| total := 0; by_severity := ∅; by_status := ∅; controls := ∅;
     findings := [] |}.
End FrameworkData.

(** The value of the result of [by_framework] for a framework. *)
Module FrameworkBreakdown.
Record t : Type := {
  total : nat;
  by_severity : gmap string nat;
  by_status : gmap string nat;
  controls_count : nat;
  controls : list string;
  findings : list finding
}.
End FrameworkBreakdown.

(** The body of the loop over the references of a finding. *)
Definition by_framework_ref_step (x : finding)
    (framework_data : gmap string FrameworkData.t) (ref : string)
    : gmap string FrameworkData.t :=
  if str_contains ":" ref then
    let framework := before_colon ref in
    let control := after_colon ref in
    let data := default FrameworkData.initial (framework_data !! framework) in
    <[framework :=
        {| FrameworkData.total := FrameworkData.total data + 1;
           FrameworkData.by_severity :=
             counter_incr (FrameworkData.by_severity data) (severity_label x);
           FrameworkData.by_status :=
             counter_incr (FrameworkData.by_status data) (status_label x);
           FrameworkData.controls := {[control]} ∪ FrameworkData.controls data;
           FrameworkData.findings := (FrameworkData.findings data ++ [x])%list |}]>
      framework_data
  else framework_data.

Definition by_framework_step (framework_data : gmap string FrameworkData.t)
    (x : finding) : gmap string FrameworkData.t :=
  if has_framework_refs x
     && match framework_refs x with [] => false | _ :: _ => true end
  then foldl (by_framework_ref_step x) framework_data (framework_refs x)
  else framework_data.

Definition framework_breakdown (data : FrameworkData.t) : FrameworkBreakdown.t :=
  {| FrameworkBreakdown.total := FrameworkData.total data;
     FrameworkBreakdown.by_severity := FrameworkData.by_severity data;
     FrameworkBreakdown.by_status := FrameworkData.by_status data;
     FrameworkBreakdown.controls_count := size (FrameworkData.controls data);
     FrameworkBreakdown.controls := sorted (FrameworkData.controls data);
     FrameworkBreakdown.findings := FrameworkData.findings data |}.

Definition by_framework (findings : list finding)
    : gmap string FrameworkBreakdown.t :=
  framework_breakdown <$> foldl by_framework_step ∅ findings.

(** The three branches of [_extract_resource_type]; each returns, or falls
    through to the next. *)
Definition aws_resource_type (resource_id : string) : option string :=
  if String.prefix "arn:aws:" resource_id then
    let parts := split ":" resource_id in
    if (3 <=? length parts)%nat then parts !! 2 else None
  else None.

Definition gcp_resource_type (resource_id : string) : option string :=
  if str_contains "googleapis.com" resource_id then
    if str_contains "//" resource_id then
      split "//" resource_id !! 1 ≫= fun rest => split "." rest !! 0
    else None
  else None.

Definition azure_resource_type (resource_id : string) : option string :=
  if String.prefix "/subscriptions/" resource_id then
    let parts := split "/" resource_id in
    match index_of "providers" parts with
    | Some provider_idx =>
        match parts !! (provider_idx + 1) with
        | Some provider =>
            match parts !! (provider_idx + 2) with
            | Some resource_type => Some (provider ++ "/" ++ resource_type)
            | None => Some provider
            end
        | None => None
        end
    | None => None
    end
  else None.

Definition _extract_resource_type (resource_id : string) : option string :=
  match aws_resource_type resource_id with
  | Some t => Some t
  | None =>
      match gcp_resource_type resource_id with
      | Some t => Some t
      | None => azure_resource_type resource_id
      end
  end.

(** The key ["resource_types"] of the result of [unique_resource_analysis]:
    the number of findings per type of their resource. *)
Definition resource_types (findings : list finding) : gmap string nat :=
  foldl (fun resource_types x =>
           match OCSFFinding.resource_id (fields x) with
           | Some r =>
               if str_truthy (Some r) then
                 match _extract_resource_type r with
                 | Some resource_type =>
                     if negb (String.eqb resource_type "")
                     then counter_incr resource_types resource_type
                     else resource_types
                 | None => resource_types
                 end
               else resource_types
           | None => resource_types
           end)
        ∅ findings.

End Summarize.

(* ================================================================== *)
(** * The run of a scan ([cli/main.py], [cli/main_simple.py], [web/app.py]) *)
(* ================================================================== *)

Module Pipeline.
Section Pipeline.
Context `{PyEnv}.

(** Step 4 of the three entry points: the mappings are applied when the
    configuration names frameworks, and any exception of [apply_mapping]
    leaves the findings as they were parsed. *)
Definition apply_frameworks (dir : gmap string Mapping.yaml_file)
    (all_findings : list OCSFFinding.t) (frameworks : list string)
    : list Summarize.finding :=
  match frameworks with
  | [] => map Summarize.Plain all_findings
  | _ :: _ =>
      match Mapping.apply_mapping dir all_findings frameworks with
      | Ok enriched_findings => map Summarize.Enriched enriched_findings
      | Raise _ => map Summarize.Plain all_findings
      end
  end.

(** Steps 4 and 5. *)
Definition summarize_run (dir : gmap string Mapping.yaml_file)
    (all_findings : list OCSFFinding.t) (frameworks : list string)
    : result FindingSummary.t :=
  Summarize.generate_finding_summary
    (apply_frameworks dir all_findings frameworks).

End Pipeline.
End Pipeline.


(* ================================================================== *)
(** * Specification-level definitions *)
(* ================================================================== *)

(** An environment for the closed examples below. *)
Definition example_env : PyEnv :=
  {| str_of_container := fun _ => "<container>";
     repr_str_list := fun l => "[" ++ String.concat ", " l ++ "]";
     coerce_int := fun _ => None;
     fromisoformat := fun _ => None |}.

(** ** Severity and status normalisation *)







(** ** Records used by the closed examples *)

Definition example_now : datetime := {| instant := 0; aware := true |}.

(** [{"severity": "HIGH", "resource_id": "arn:aws:s3:::bucket"}] *)
Definition example_record : gmap string json :=
  <["severity" := JStr "HIGH"]>
    (<["resource_id" := JStr "arn:aws:s3:::bucket"]> ∅).

(** [{"resources": [5]}] and [{"resources": 5}] *)
Definition record_with_number_in_resources : gmap string json :=
  {[ "resources" := JList [JInt 5] ]}.
Definition record_with_number_as_resources : gmap string json :=
  {[ "resources" := JInt 5 ]}.

(** ** Candidate paths of the field extractor *)



















(** [{"resources": [{"name": "bucket"}], "arn": "arn:aws:s3:::bucket"}] *)
Definition record_with_named_resource : gmap string json :=
  <["resources" := JList [JDict {[ "name" := JStr "bucket" ]}]]>
    (<["arn" := JStr "arn:aws:s3:::bucket"]> ∅).

(** ** Enrichment *)

(** The rule sets that an enrichment call applies: the caller's ids in the
    caller's order, an id that is repeated counted once, at its first
    position. *)
Fixpoint distinct_ids (map_ids : list string) : list string :=
  match map_ids with
  | [] => []
  | map_id :: map_ids' =>
      map_id :: filter (fun id => id <> map_id) (distinct_ids map_ids')
  end.

(** The source key of a finding, [product + ":" + check_id]: a finding
    whose [check_id] is unset or empty has none. *)
Definition source_key (finding : OCSFFinding.t) : option string :=
  match OCSFFinding.check_id finding with
  | Some check_id =>
      if String.eqb check_id "" then None
      else Some (OCSFFinding.product finding ++ ":" ++ check_id)
  | None => None
  end.

(** The source key as the claim words it: every finding whose [check_id]
    is set has one. *)
Definition source_key_as_claimed (finding : OCSFFinding.t) : option string :=
  match OCSFFinding.check_id finding with
  | Some check_id => Some (OCSFFinding.product finding ++ ":" ++ check_id)
  | None => None
  end.

(** The matching rules of a finding, each with the id of its rule set:
    rule sets in the order of [distinct_ids], and the rules of a rule set
    in file order. *)
Definition matching_rules_by `{PyEnv} (key_of : OCSFFinding.t -> option string)
    (dir : gmap string Mapping.yaml_file) (map_ids : list string)
    (finding : OCSFFinding.t) : list (string * MappingRule.t) :=
  match key_of finding with
  | None => []
  | Some key =>
      flat_map
        (fun map_id =>
           match Mapping.load_mapping dir map_id with
           | Ok mapping =>
               map (pair map_id)
                   (filter (fun rule => MappingRule.source rule = key)
                           (ComplianceMapping.rules mapping))
           | Raise _ => []
           end)
        (distinct_ids map_ids)
  end.

Definition matching_rules `{PyEnv} := matching_rules_by source_key.

(** ["<ruleSetId>:<control>"] *)
Definition ref_of (entry : string * MappingRule.t) : string :=
  entry.1 ++ ":" ++ MappingRule.target entry.2.

(** The first override, in match order, that is neither null nor empty. *)
Fixpoint first_true_override (overrides : list (option string)) : option string :=
  match overrides with
  | [] => None
  | Some o :: overrides' =>
      if String.eqb o "" then first_true_override overrides' else Some o
  | None :: overrides' => first_true_override overrides'
  end.


(** The override that enrichment assigns to a finding, if any: none when
    the severity of the finding is set. *)
Definition override_to_apply `{PyEnv} (dir : gmap string Mapping.yaml_file)
    (map_ids : list string) (finding : OCSFFinding.t) : option string :=
  match OCSFFinding.severity finding with
  | Some _ => None
  | None =>
      first_true_override
        (map (fun entry => MappingRule.severity entry.2)
             (matching_rules dir map_ids finding))
  end.

(** Two findings agree on every canonical field other than [severity]. *)
Definition same_but_severity (f g : OCSFFinding.t) : Prop :=
  OCSFFinding.time f = OCSFFinding.time g /\
  OCSFFinding.provider f = OCSFFinding.provider g /\
  OCSFFinding.product f = OCSFFinding.product g /\
  OCSFFinding.class_uid f = OCSFFinding.class_uid g /\
  OCSFFinding.class_name f = OCSFFinding.class_name g /\
  OCSFFinding.status f = OCSFFinding.status g /\
  OCSFFinding.resource_id f = OCSFFinding.resource_id g /\
  OCSFFinding.account_id f = OCSFFinding.account_id g /\
  OCSFFinding.region f = OCSFFinding.region g /\
  OCSFFinding.check_id f = OCSFFinding.check_id g /\
  OCSFFinding.title f = OCSFFinding.title g /\
  OCSFFinding.description f = OCSFFinding.description g /\
  OCSFFinding.remediation f = OCSFFinding.remediation g /\
  OCSFFinding.raw f = OCSFFinding.raw g.

(** ** Rule sets and findings used by the closed examples *)

Definition example_rule (source target : string) (severity : option string) : json :=
  let fields : gmap string json :=
    <["source" := JStr source]>
      (<["target" := JStr target]>
         (<["title" := JStr "title"]>
            (<["description" := JStr "description"]> ∅))) in
  JDict match severity with
        | Some s => <["severity" := JStr s]> fields
        | None => fields
        end.

Definition example_rule_set (map_id : string) (rules : list json) : gmap string json :=
  <["map_id" := JStr map_id]>
    (<["name" := JStr "name"]>
       (<["version" := JStr "1.0"]>
          (<["description" := JStr "description"]>
             (<["framework_type" := JStr "cis"]>
                (<["rules" := JList rules]> ∅))))).

Definition example_finding (check_id : option string)
    (severity : option Severity.t) : OCSFFinding.t :=
  {| OCSFFinding.time := example_now;
     OCSFFinding.provider := Provider.aws;
     OCSFFinding.product := "prowler";
     OCSFFinding.class_uid := None;
     OCSFFinding.class_name := None;
     OCSFFinding.severity := severity;
     OCSFFinding.status := None;
     OCSFFinding.resource_id := None;
     OCSFFinding.account_id := None;
     OCSFFinding.region := None;
     OCSFFinding.check_id := check_id;
     OCSFFinding.title := None;
     OCSFFinding.description := None;
     OCSFFinding.remediation := None;
     OCSFFinding.raw := ∅ |}.

(** Two rule sets; [cis] maps [prowler:check_a] twice, with the overrides
    ["high"] and ["critical"], and [nist] maps it once. *)
Definition example_dir : gmap string Mapping.yaml_file :=
  <["cis" := Mapping.Yaml (JDict (example_rule_set "cis"
       [ example_rule "prowler:check_a" "CIS-1.1" (Some "high");
         example_rule "prowler:check_b" "CIS-1.2" None;
         example_rule "prowler:check_a" "CIS-1.3" (Some "critical") ]))]>
    (<["nist" := Mapping.Yaml (JDict (example_rule_set "nist"
         [ example_rule "prowler:check_a" "PR.AC-1" None ]))]> ∅).

(** A rule set with a rule for the source key ["prowler:"]. *)
Definition dir_with_empty_check_rule : gmap string Mapping.yaml_file :=
  {[ "cis" := Mapping.Yaml (JDict (example_rule_set "cis"
       [ example_rule "prowler:" "CIS-1.1" None ])) ]}.



(** A rule-set file with the undeclared top-level key [owner]. *)
Definition dir_with_unknown_field : gmap string Mapping.yaml_file :=
  {[ "cis" := Mapping.Yaml (JDict (<["owner" := JStr "team"]>
       (example_rule_set "cis" [ example_rule "prowler:check_a" "CIS-1.1" None ]))) ]}.


(** ** Enrichment, rule set by rule set *)

(** The entry of the [mappings] dict for an id that loads. *)
Definition loaded_entry `{PyEnv} (dir : gmap string Mapping.yaml_file)
    (map_id : string) : list (string * ComplianceMapping.t) :=
  match Mapping.load_mapping dir map_id with
  | Ok mapping => [(map_id, mapping)]
  | Raise _ => []
  end.

(** The entry of the lookup table for a rule of the rule set [entry.1]. *)
Definition info_of (entry : string * MappingRule.t) : Mapping.control_info :=
  {| Mapping.framework := entry.1;
     Mapping.control := MappingRule.target entry.2;
     Mapping.title := MappingRule.title entry.2;
     Mapping.description := MappingRule.description entry.2;
     Mapping.severity_override := MappingRule.severity entry.2 |}.

(** The rules with the source [key], over a list of loaded rule sets. *)
Definition rules_for (key : string)
    (mappings : list (string * ComplianceMapping.t))
    : list (string * MappingRule.t) :=
  flat_map (fun entry =>
              map (pair entry.1)
                  (filter (fun rule => MappingRule.source rule = key)
                          (ComplianceMapping.rules entry.2)))
           mappings.

(** The enriched finding with the given references and severity. *)
Definition enriched_as (finding : OCSFFinding.t) (refs : list string)
    (severity : option Severity.t) : OCSFEnrichedFinding.t :=
  OCSFEnrichedFinding.with_framework_refs
    (OCSFEnrichedFinding.with_severity
       (OCSFEnrichedFinding.of_finding finding) severity)
    refs.

(** Enrichment of one finding, in the words of the specification: the
    references of the matching rules, and the first true override in place
    of an unset severity; the assignment of an override that is not the name
    of a severity level fails validation. *)
Definition enrichment_of `{PyEnv} (dir : gmap string Mapping.yaml_file)
    (map_ids : list string) (finding : OCSFFinding.t)
    : result OCSFEnrichedFinding.t :=
  let refs := map ref_of (matching_rules dir map_ids finding) in
  match override_to_apply dir map_ids finding with
  | None => Ok (enriched_as finding refs (OCSFFinding.severity finding))
  | Some override =>
      match Severity.validate override with
      | Some severity => Ok (enriched_as finding refs (Some severity))
      | None => Raise ValidationError
      end
  end.

(** The reference that the loop over the matching controls appends. *)
Definition control_ref (c : Mapping.control_info) : string :=
  Mapping.framework c ++ ":" ++ Mapping.control c.


(** Every id of the list loads. *)
Definition all_load `{PyEnv} (dir : gmap string Mapping.yaml_file)
    (map_ids : list string) : Prop :=
  Forall (fun id => is_ok (Mapping.load_mapping dir id) = true) map_ids.

(** ** Summaries *)

(** [x] is the framework id of a reference of one of the findings: the part
    before the first colon of a reference that has a colon. *)
Definition framework_id_seen (findings : list Summarize.finding) (x : string)
    : Prop :=
  exists finding ref,
    finding ∈ findings /\ ref ∈ Summarize.framework_refs finding /\
    str_contains ":" ref = true /\ x = before_colon ref.

(** A list is the sorted list of the distinct framework ids of the
    findings. *)
Definition sorted_framework_ids (findings : list Summarize.finding)
    (ids : list string) : Prop :=
  Sorted String.leb ids /\ NoDup ids /\
  forall x, x ∈ ids <-> framework_id_seen findings x.

(** An enriched finding with the reference [cis_aws_1_4:CIS-1.3]. *)
Definition example_enriched : OCSFEnrichedFinding.t :=
  OCSFEnrichedFinding.with_framework_refs
    (OCSFEnrichedFinding.of_finding (example_finding (Some "check_a") None))
    ["cis_aws_1_4:CIS-1.3"].

(** A plain finding first, then an enriched one. *)
Definition plain_then_enriched : list Summarize.finding :=
  [ Summarize.Plain (example_finding None None);
    Summarize.Enriched example_enriched ].

(* ================================================================== *)
(** * Further specification-level definitions *)
(* ================================================================== *)

(** A value is a mapping. *)
Definition is_mapping (v : json) : bool :=
  match v with
  | JDict _ => true
  | _ => false
  end.

(** The [resources] entry of a record is absent, null, or a list of
    mappings. *)
Definition resources_are_mappings (raw : gmap string json) : Prop :=
  match raw !! "resources" with
  | None | Some JNull => True
  | Some (JList l) => Forall (fun v => is_mapping v = true) l
  | Some _ => False
  end.

(** The records of a file: the elements of an array, the object itself for
    a single object. *)
Definition records_of (data : json) : option (list json) :=
  match data with
  | JList l => Some l
  | JDict m => Some [JDict m]
  | _ => None
  end.

(** [{"resources": [{"uid": null}], "resource_id": "r-1"}] *)
Definition record_with_null_uid : gmap string json :=
  <["resources" := JList [JDict {[ "uid" := JNull ]}]]>
    (<["resource_id" := JStr "r-1"]> ∅).

(** The last category of a list that has the given name. *)
Definition last_category_named (name : string)
    (categories : list MappingCategory.t) : option MappingCategory.t :=
  last (filter (fun c => MappingCategory.name c = name) categories).

(** A rule-set file with two categories of the same name. *)
Definition dir_with_categories : gmap string Mapping.yaml_file :=
  {[ "cis" := Mapping.Yaml (JDict (
       <["categories" := JList
           [ JDict (<["id" := JStr "1"]> (<["name" := JStr "IAM"]>
                      (<["controls" := JList [JStr "CIS-1.1"]]> ∅)));
             JDict (<["id" := JStr "2"]> (<["name" := JStr "IAM"]>
                      (<["controls" := JList [JStr "CIS-1.2"]]> ∅))) ]]>
         (example_rule_set "cis"
            [ example_rule "prowler:check_a" "CIS-1.1" None ]))) ]}.


(** ** Counting *)

(** The number of elements of a list with the label [k]. *)
Definition occurrences {A} (label : A -> string) (k : string) (l : list A) : nat :=
  length (filter (fun x => label x = k) l).

(** The entry of a counter for a label that occurs [n] times: none when it
    does not occur. *)
Definition counted (n : nat) : option nat :=
  match n with
  | O => None
  | S _ => Some n
  end.

(** The sum of the counts of a counter. *)
Definition counter_total (counter : gmap string nat) : nat :=
  map_fold (fun _ n total => n + total) 0 counter.

Definition provider_label (x : Summarize.finding) : string :=
  Provider.name (OCSFFinding.provider (Summarize.fields x)).

Definition product_label (x : Summarize.finding) : string :=
  OCSFFinding.product (Summarize.fields x).

(** The time of a finding. *)
Definition time_of (x : Summarize.finding) : datetime :=
  OCSFFinding.time (Summarize.fields x).

(** The resource ids, and the account ids, of the findings that are not
    empty. *)
Definition resource_ids (findings : list Summarize.finding) : list string :=
  omap (fun x => match OCSFFinding.resource_id (Summarize.fields x) with
                 | Some r => if String.eqb r "" then None else Some r
                 | None => None
                 end) findings.

Definition account_ids (findings : list Summarize.finding) : list string :=
  omap (fun x => match OCSFFinding.account_id (Summarize.fields x) with
                 | Some a => if String.eqb a "" then None else Some a
                 | None => None
                 end) findings.

(** A finding with the given time, severity and status. *)
Definition finding_at (time : datetime) (severity : option Severity.t)
    (status : option Status.t) (resource_id : option string)
    : Summarize.finding :=
  Summarize.Plain
    {| OCSFFinding.time := time;
       OCSFFinding.provider := Provider.aws;
       OCSFFinding.product := "prowler";
       OCSFFinding.class_uid := None;
       OCSFFinding.class_name := None;
       OCSFFinding.severity := severity;
       OCSFFinding.status := status;
       OCSFFinding.resource_id := resource_id;
       OCSFFinding.account_id := None;
       OCSFFinding.region := None;
       OCSFFinding.check_id := None;
       OCSFFinding.title := None;
       OCSFFinding.description := None;
       OCSFFinding.remediation := None;
       OCSFFinding.raw := ∅ |}.

Definition example_naive_time : datetime := {| instant := 5; aware := false |}.

(** ** Breakdowns *)

(** The breakdown of a list of findings, as the functions of the summary
    compute its parts. *)
Definition breakdown_of (findings : list Summarize.finding)
    : Summarize.ProviderBreakdown.t :=
  {| Summarize.ProviderBreakdown.total := length findings;
     Summarize.ProviderBreakdown.by_severity := Summarize.severity_counts findings;
     Summarize.ProviderBreakdown.by_status := Summarize.status_counts findings;
     Summarize.ProviderBreakdown.by_product := Summarize.product_counts findings;
     Summarize.ProviderBreakdown.unique_resources :=
       (Summarize.unique_resource_analysis findings).1;
     Summarize.ProviderBreakdown.unique_accounts :=
       (Summarize.unique_resource_analysis findings).2 |}.

(** The findings of a provider. *)
Definition findings_of_provider (provider : Provider.t)
    (findings : list Summarize.finding) : list Summarize.finding :=
  filter (fun x => provider_label x = Provider.name provider) findings.

(** What holds of every value of the result of [by_framework]. *)
Definition framework_breakdown_ok (g : Summarize.FrameworkBreakdown.t) : Prop :=
  Summarize.FrameworkBreakdown.controls_count g
  = length (Summarize.FrameworkBreakdown.controls g) /\
  1 <= Summarize.FrameworkBreakdown.controls_count g /\
  Summarize.FrameworkBreakdown.controls_count g
  <= Summarize.FrameworkBreakdown.total g /\
  Summarize.FrameworkBreakdown.total g
  = length (Summarize.FrameworkBreakdown.findings g) /\
  Sorted String.leb (Summarize.FrameworkBreakdown.controls g) /\
  NoDup (Summarize.FrameworkBreakdown.controls g).

(** No id of the list has a colon. *)
Definition colon_free (map_ids : list string) : Prop :=
  Forall (fun id => str_contains ":" id = false) map_ids.

(** A finding with an offset-aware time, then one with a naive time. *)
Definition aware_then_naive : list Summarize.finding :=
  [ finding_at example_now (Some Severity.high) (Some Status.fail) (Some "r-1");
    finding_at example_naive_time None None None ].

(** The invariant of the values that the loop of [by_framework] keeps. *)
Definition framework_data_ok (data : Summarize.FrameworkData.t) : Prop :=
  Summarize.FrameworkData.total data
  = length (Summarize.FrameworkData.findings data) /\
  1 <= size (Summarize.FrameworkData.controls data) /\
  size (Summarize.FrameworkData.controls data)
  <= Summarize.FrameworkData.total data.

(** A rule of a loaded rule set against the entry of the [rules] list of
    the file that it comes from. *)
Definition rule_of_entry (entry : json) (rule : MappingRule.t) : Prop :=
  exists d,
    entry = JDict d /\
    d !! "source" = Some (JStr (MappingRule.source rule)) /\
    d !! "target" = Some (JStr (MappingRule.target rule)) /\
    d !! "title" = Some (JStr (MappingRule.title rule)) /\
    d !! "description" = Some (JStr (MappingRule.description rule)) /\
    match MappingRule.severity rule with
    | Some s => d !! "severity" = Some (JStr s)
    | None => d !! "severity" = None \/ d !! "severity" = Some JNull
    end.
(* ================================================================== *)
(** * Properties of the normaliser *)
(* ================================================================== *)

Section NormalizeValues.
Context `{PyEnv}.




End NormalizeValues.

Section NormalizeValuesClaims.
Context `{PyEnv}.




End NormalizeValuesClaims.


(** ** The raw record is kept *)

Lemma bind_Ok {A B} (r : result A) (k : A -> result B) (b : B) :
  (let* x := r in k x) = Ok b -> exists a, r = Ok a /\ k a = Ok b.
Proof. destruct r as [a|e]; cbn; [eauto | discriminate]. Qed.

Ltac invert_bind H :=
  let a := fresh "a" in
  let Ha := fresh "Ha" in
  apply bind_Ok in H; destruct H as (a & Ha & H).

Section RawKept.
Context `{PyEnv}.

(** C7: for every raw record that the normaliser accepts, the [raw] field
    of the finding it produces is the input record itself. *)
Theorem parse_single_finding_keeps_raw
    (raw_finding : gmap string json) (provider : Provider.t) (product : string)
    (now : datetime) (finding : OCSFFinding.t) :
  Parser._parse_single_finding raw_finding provider product now = Ok finding ->
  OCSFFinding.raw finding = raw_finding.
Proof.
  unfold Parser._parse_single_finding. intros Hparse.
  do 5 invert_bind Hparse.
  injection Hparse as <-. reflexivity.
Qed.

(** The same over a whole file: the findings of [parse_ocsf] carry, in
    order, the records of the file. *)
Lemma parse_records_keep_raw (data : list json) (provider : Provider.t)
    (product : string) (clock : nat -> datetime) :
  forall (i : nat) (findings : list OCSFFinding.t),
    Parser.parse_records i data provider product clock = Ok findings ->
    map (fun f => JDict (OCSFFinding.raw f)) findings = data.
Proof.
  induction data as [|raw_finding data IH]; intros i findings Hparse; cbn in Hparse.
  - injection Hparse as <-. reflexivity.
  - destruct raw_finding as [ | | | | | | m ]; try discriminate Hparse.
    destruct (Parser._parse_single_finding m provider product (clock i))
      as [finding|e] eqn:Hone; [| discriminate Hparse].
    invert_bind Hparse. injection Hparse as <-. cbn.
    rewrite (parse_single_finding_keeps_raw _ _ _ _ _ Hone).
    f_equal. eapply IH. eassumption.
Qed.

End RawKept.

Lemma parse_single_finding_keeps_raw_witness :
  exists finding,
    @Parser._parse_single_finding example_env example_record Provider.aws
      "prowler" example_now = Ok finding /\
    OCSFFinding.raw finding = example_record.
Proof.
  eexists. split.
  - vm_compute. reflexivity.
  - apply (@parse_single_finding_keeps_raw example_env example_record
             Provider.aws "prowler" example_now).
    vm_compute. reflexivity.
Defined.

(** ** Extraction from a record whose [resources] is not a list of mappings *)

(** C4 (the code fails the claim): on the record [{"resources": [5]}] and
    on the record [{"resources": 5}] the three extraction functions that
    look at [resources] raise [TypeError], and so normalisation of a file
    that holds such a record fails. *)
Theorem extraction_raises_on_non_mapping_resources :
  forall env : PyEnv,
    @Parser._extract_resource_id env record_with_number_in_resources = Raise TypeError /\
    @Parser._extract_account_id env record_with_number_in_resources = Raise TypeError /\
    @Parser._extract_region env record_with_number_in_resources = Raise TypeError /\
    @Parser._extract_resource_id env record_with_number_as_resources = Raise TypeError /\
    @Parser._extract_account_id env record_with_number_as_resources = Raise TypeError /\
    @Parser._extract_region env record_with_number_as_resources = Raise TypeError /\
    (forall provider product clock,
       @Parser.parse_ocsf env (Parser.Json (JDict record_with_number_in_resources))
         provider product clock = Raise ValueError).
Proof.
  intros env. repeat split; reflexivity.
Qed.

(** ** The field extractor *)

Section FieldExtractor.
Context `{PyEnv}.






End FieldExtractor.

Section ResourceFields.
Context `{PyEnv}.









End ResourceFields.



(* ================================================================== *)
(** * Properties of the mapping loader *)
(* ================================================================== *)

Section Loader.
Context `{PyEnv}.
Implicit Type dir : gmap string Mapping.yaml_file.





End Loader.


(* ================================================================== *)
(** * Properties of the enricher *)
(* ================================================================== *)

Section OrderedDict.
Context {V : Type}.

Lemma odict_set_fresh (d : list (string * V)) (k : string) (v : V) :
  k ∉ d.*1 -> odict_set d k v = (d ++ [(k, v)])%list.
Proof.
  induction d as [|[k' v'] d IH]; cbn; intros Hfresh; [reflexivity |].
  apply not_elem_of_cons in Hfresh as [Hne Hfresh].
  destruct (String.eqb_spec k' k) as [->|_]; [congruence |].
  rewrite IH by assumption. reflexivity.
Qed.

Lemma odict_set_same (d : list (string * V)) (k : string) (v : V) :
  k ∈ d.*1 -> (forall v', (k, v') ∈ d -> v' = v) -> odict_set d k v = d.
Proof.
  induction d as [|[k' v'] d IH]; cbn; intros Hin Hval.
  - apply elem_of_nil in Hin. destruct Hin.
  - destruct (String.eqb_spec k' k) as [->|Hne].
    + rewrite (Hval v') by left. reflexivity.
    + f_equal. apply IH.
      * apply elem_of_cons in Hin as [Heq|Hin]; [congruence | exact Hin].
      * intros v'' Hv. apply Hval. right. exact Hv.
Qed.

End OrderedDict.

Section LoadedRuleSets.
Context `{PyEnv}.
Implicit Type dir : gmap string Mapping.yaml_file.

Lemma filter_not_in_keys_cons (keys : list string) (map_id : string)
    (ids : list string) :
  filter (fun id => id ∉ (keys ++ [map_id])%list) ids
  = filter (fun id => id ∉ keys) (filter (fun id => id <> map_id) ids).
Proof.
  rewrite list_filter_filter. apply list_filter_iff.
  intros id. rewrite not_elem_of_app, not_elem_of_cons. 
  split; [intros (? & ? & _) | intros (? & ?)]; repeat split; auto.
  apply not_elem_of_nil.
Qed.

Lemma filter_not_in_keys_member (keys : list string) (map_id : string)
    (ids : list string) :
  map_id ∈ keys ->
  filter (fun id => id ∉ keys) (filter (fun id => id <> map_id) ids)
  = filter (fun id => id ∉ keys) ids.
Proof.
  intros Hin. rewrite list_filter_filter. apply list_filter_iff.
  intros id. split; [intros [? _]; assumption |].
  intros Hout. split; [assumption | congruence].
Qed.

(** The [mappings] dict after the loading loop: the entries it had, then
    one entry for each new id, at the position of its first occurrence. *)
Lemma load_mappings_spec dir (map_ids : list string) :
  forall (acc mappings : list (string * ComplianceMapping.t)),
    (forall id m, (id, m) ∈ acc -> Mapping.load_mapping dir id = Ok m) ->
    Mapping.load_mappings dir map_ids acc = Ok mappings ->
    mappings
    = (acc ++ flat_map (loaded_entry dir)
                 (filter (fun id => id ∉ acc.*1) (distinct_ids map_ids)))%list.
Proof.
  induction map_ids as [|map_id map_ids IH]; intros acc mappings Hacc Hload;
    cbn in Hload.
  - injection Hload as <-. cbn. rewrite app_nil_r. reflexivity.
  - invert_bind Hload. rename a into mapping.
    cbn [distinct_ids]. rewrite filter_cons.
    destruct (decide (map_id ∉ acc.*1)) as [Hfresh|Hold].
    + rewrite odict_set_fresh in Hload by assumption.
      apply IH in Hload.
      * rewrite Hload, fmap_app. cbn [fmap list_fmap fst].
        rewrite filter_not_in_keys_cons.
        cbn [flat_map]. unfold loaded_entry at 2. rewrite Ha.
        rewrite <- app_assoc. reflexivity.
      * intros id m Hin. apply elem_of_app in Hin as [Hin|Hin]; [eauto |].
        apply list_elem_of_singleton in Hin. injection Hin as -> ->. exact Ha.
    + apply dec_stable in Hold.
      rewrite odict_set_same in Hload.
      * apply IH in Hload; [| assumption].
        rewrite filter_not_in_keys_member by assumption. exact Hload.
      * assumption.
      * intros m' Hin. apply Hacc in Hin. congruence.
Qed.

Lemma load_mappings_loads dir (map_ids : list string) :
  forall acc mappings,
    Mapping.load_mappings dir map_ids acc = Ok mappings ->
    Forall (fun id => is_ok (Mapping.load_mapping dir id) = true) map_ids.
Proof.
  induction map_ids as [|map_id map_ids IH]; intros acc mappings Hload;
    cbn in Hload; constructor.
  - invert_bind Hload. rewrite Ha. reflexivity.
  - invert_bind Hload. eauto.
Qed.

Lemma load_mappings_total dir (map_ids : list string) :
  Forall (fun id => is_ok (Mapping.load_mapping dir id) = true) map_ids ->
  forall acc, exists mappings, Mapping.load_mappings dir map_ids acc = Ok mappings.
Proof.
  induction 1 as [|map_id map_ids Hid _ IH]; intros acc; cbn.
  - eauto.
  - destruct (Mapping.load_mapping dir map_id) as [m|e]; [| discriminate Hid].
    cbn. apply IH.
Qed.

End LoadedRuleSets.

Section LookupTable.
Context `{PyEnv}.

(** The entries of the lookup table under [key], the empty list when the
    table has none. *)
Local Abbreviation entries_under key table := (default [] (table !! key)).

Lemma add_rule_lookup (map_id : string)
    (table : gmap string (list Mapping.control_info)) (rule : MappingRule.t)
    (key : string) :
  entries_under key (Mapping.add_rule map_id table rule)
  = (entries_under key table ++
     map info_of (map (pair map_id)
                      (filter (fun r => MappingRule.source r = key) [rule])))%list.
Proof.
  unfold Mapping.add_rule. rewrite filter_cons, filter_nil.
  destruct (decide (MappingRule.source rule = key)) as [<-|Hne].
  - rewrite lookup_insert_eq. cbn [default from_option id map].
    destruct (table !! MappingRule.source rule) as [l|] eqn:Hl.
    + rewrite Hl. reflexivity.
    + rewrite lookup_insert_eq. reflexivity.
  - rewrite lookup_insert_ne by assumption. rewrite app_nil_r.
    destruct (table !! MappingRule.source rule) as [l|]; [reflexivity |].
    rewrite lookup_insert_ne by assumption. reflexivity.
Qed.

Lemma add_rules_lookup (map_id : string) (rules : list MappingRule.t)
    (key : string) :
  forall table : gmap string (list Mapping.control_info),
    entries_under key (foldl (Mapping.add_rule map_id) table rules)
    = (entries_under key table ++
       map info_of (map (pair map_id)
                        (filter (fun r => MappingRule.source r = key) rules)))%list.
Proof.
  induction rules as [|rule rules IH]; intros table; cbn [foldl].
  - rewrite filter_nil, app_nil_r. reflexivity.
  - rewrite IH, add_rule_lookup. rewrite <- app_assoc, <- !map_app.
    rewrite <- filter_app. reflexivity.
Qed.

Lemma add_mappings_lookup (mappings : list (string * ComplianceMapping.t))
    (key : string) :
  forall table : gmap string (list Mapping.control_info),
    entries_under key
      (foldl (fun table entry =>
                foldl (Mapping.add_rule entry.1) table
                      (ComplianceMapping.rules entry.2))
             table mappings)
    = (entries_under key table ++ map info_of (rules_for key mappings))%list.
Proof.
  induction mappings as [|[map_id mapping] mappings IH]; intros table;
    cbn [foldl rules_for flat_map].
  - rewrite app_nil_r. reflexivity.
  - rewrite IH, add_rules_lookup. rewrite <- app_assoc, <- map_app. reflexivity.
Qed.

(** The lookup table holds, under each key, the rules with that source:
    rule sets in the order of the [mappings] dict, rules in file order. *)
Lemma build_check_to_controls_lookup
    (mappings : list (string * ComplianceMapping.t)) (key : string) :
  entries_under key (Mapping.build_check_to_controls mappings)
  = map info_of (rules_for key mappings).
Proof.
  unfold Mapping.build_check_to_controls.
  rewrite add_mappings_lookup, lookup_empty. reflexivity.
Qed.

Lemma rules_for_loaded (dir : gmap string Mapping.yaml_file) (key : string)
    (map_ids : list string) :
  rules_for key (flat_map (loaded_entry dir) map_ids)
  = flat_map
      (fun map_id =>
         match Mapping.load_mapping dir map_id with
         | Ok mapping =>
             map (pair map_id)
                 (filter (fun rule => MappingRule.source rule = key)
                         (ComplianceMapping.rules mapping))
         | Raise _ => []
         end)
      map_ids.
Proof.
  induction map_ids as [|map_id map_ids IH]; [reflexivity |].
  cbn [flat_map]. unfold rules_for in *. rewrite flat_map_app, IH.
  f_equal. unfold loaded_entry.
  destruct (Mapping.load_mapping dir map_id); cbn; [apply app_nil_r | reflexivity].
Qed.

End LookupTable.

Section EnrichOne.
Context `{PyEnv}.

(** The loop over the matching controls: it appends one reference per
    control, and assigns the first true override when the severity is
    unset. *)
Lemma apply_controls_spec (controls : list Mapping.control_info) :
  forall (refs : list string) (e : OCSFEnrichedFinding.t),
    Mapping.apply_controls controls refs e
    = let refs' := (refs ++ map control_ref controls)%list in
      match OCSFEnrichedFinding.severity e with
      | Some _ => Ok (refs', e)
      | None =>
          match first_true_override (map Mapping.severity_override controls) with
          | None => Ok (refs', e)
          | Some override =>
              match Severity.validate override with
              | Some s => Ok (refs', OCSFEnrichedFinding.with_severity e (Some s))
              | None => Raise ValidationError
              end
          end
      end.
Proof.
  induction controls as [|c controls IH]; intros refs e; cbn zeta.
  - cbn. rewrite app_nil_r. destruct (OCSFEnrichedFinding.severity e); reflexivity.
  - cbn [Mapping.apply_controls map first_true_override].
    destruct (OCSFEnrichedFinding.severity e) as [s|] eqn:Hsev.
    + rewrite andb_false_r. cbn [bind]. rewrite IH. cbn zeta. rewrite Hsev.
      rewrite <- app_assoc. reflexivity.
    + rewrite andb_true_r.
      destruct (Mapping.severity_override c) as [o|]; cbn [Mapping.override_truthy].
      * destruct (String.eqb o ""); cbn [negb].
        -- cbn [bind]. rewrite IH. cbn zeta. rewrite Hsev.
           rewrite <- app_assoc. reflexivity.
        -- cbn [Mapping.assign_severity].
           destruct (Severity.validate o) as [s|]; [| reflexivity].
           cbn [bind]. rewrite IH. cbn zeta.
           rewrite <- app_assoc. reflexivity.
      * cbn [bind]. rewrite IH. cbn zeta. rewrite Hsev.
        rewrite <- app_assoc. reflexivity.
Qed.

End EnrichOne.

Section EnrichAll.
Context `{PyEnv}.
Implicit Type dir : gmap string Mapping.yaml_file.

Lemma enriched_as_default (finding : OCSFFinding.t) :
  enriched_as finding [] (OCSFFinding.severity finding)
  = OCSFEnrichedFinding.of_finding finding.
Proof. destruct finding. reflexivity. Qed.

Lemma filter_not_in_nil (ids : list string) :
  filter (fun id => id ∉ ([] : list string)) ids = ids.
Proof.
  induction ids as [|id ids IH]; [reflexivity |].
  rewrite filter_cons_True by apply not_elem_of_nil. rewrite IH. reflexivity.
Qed.

Lemma loaded_mappings dir (map_ids : list string)
    (mappings : list (string * ComplianceMapping.t)) :
  Mapping.load_mappings dir map_ids [] = Ok mappings ->
  mappings = flat_map (loaded_entry dir) (distinct_ids map_ids).
Proof.
  intros Hload. apply load_mappings_spec in Hload.
  - cbn in Hload. rewrite filter_not_in_nil in Hload. exact Hload.
  - intros id m Hin. apply elem_of_nil in Hin. destruct Hin.
Qed.

(** The controls that the loop of [apply_mapping] finds for a finding that
    has a source key are its matching rules. *)
Lemma controls_of_finding dir (map_ids : list string)
    (mappings : list (string * ComplianceMapping.t)) (finding : OCSFFinding.t)
    (key : string) :
  Mapping.load_mappings dir map_ids [] = Ok mappings ->
  source_key finding = Some key ->
  default [] (Mapping.build_check_to_controls mappings !! key)
  = map info_of (matching_rules dir map_ids finding).
Proof.
  intros Hload Hkey.
  rewrite build_check_to_controls_lookup.
  rewrite (loaded_mappings dir map_ids mappings Hload), rules_for_loaded.
  unfold matching_rules, matching_rules_by. rewrite Hkey. reflexivity.
Qed.

Lemma enrich_with_controls (finding : OCSFFinding.t)
    (rules : list (string * MappingRule.t)) :
  (let* r := Mapping.apply_controls (map info_of rules) []
               (OCSFEnrichedFinding.of_finding finding) in
   Ok (OCSFEnrichedFinding.with_framework_refs r.2 r.1))
  = match OCSFFinding.severity finding with
    | Some s => Ok (enriched_as finding (map ref_of rules) (Some s))
    | None =>
        match first_true_override
                (map (fun entry => MappingRule.severity entry.2) rules) with
        | None => Ok (enriched_as finding (map ref_of rules) None)
        | Some override =>
            match Severity.validate override with
            | Some s => Ok (enriched_as finding (map ref_of rules) (Some s))
            | None => Raise ValidationError
            end
        end
    end.
Proof.
  rewrite apply_controls_spec. cbn zeta. cbn [app].
  rewrite !map_map.
  change (fun x => control_ref (info_of x)) with ref_of.
  change (fun x => Mapping.severity_override (info_of x))
    with (fun entry : string * MappingRule.t => MappingRule.severity entry.2).
  change (OCSFEnrichedFinding.severity (OCSFEnrichedFinding.of_finding finding))
    with (OCSFFinding.severity finding).
  destruct finding as [? ? ? ? ? [s|] ? ? ? ? ? ? ? ? ?]; cbn [OCSFFinding.severity].
  - reflexivity.
  - destruct (first_true_override _) as [o|]; [| reflexivity].
    destruct (Severity.validate o); reflexivity.
Qed.

(** The body of the loop over the findings computes [enrichment_of]. *)
Lemma enrich_finding_spec dir (map_ids : list string)
    (mappings : list (string * ComplianceMapping.t)) (finding : OCSFFinding.t) :
  Mapping.load_mappings dir map_ids [] = Ok mappings ->
  Mapping.enrich_finding (Mapping.build_check_to_controls mappings) finding
  = enrichment_of dir map_ids finding.
Proof.
  intros Hload.
  pose proof (controls_of_finding dir map_ids mappings finding) as Hcontrols.
  specialize (fun key => Hcontrols key Hload).
  assert (Hnone : source_key finding = None ->
                  enrichment_of dir map_ids finding
                  = Ok (OCSFEnrichedFinding.of_finding finding)).
  { intros Hkey. unfold enrichment_of, override_to_apply, matching_rules,
      matching_rules_by. rewrite Hkey. cbn.
    destruct (OCSFFinding.severity finding) eqn:Hsev;
      rewrite <- Hsev; rewrite enriched_as_default; reflexivity. }
  unfold Mapping.enrich_finding.
  unfold source_key in *.
  destruct (OCSFFinding.check_id finding) as [check_id|];
    [| symmetry; apply Hnone; reflexivity].
  destruct (String.eqb check_id ""); cbn [negb];
    [symmetry; apply Hnone; reflexivity |].
  specialize (Hcontrols _ eq_refl). clear Hnone.
  destruct (Mapping.build_check_to_controls mappings !! _) as [controls|];
    cbn [default from_option id] in Hcontrols.
  - rewrite Hcontrols, enrich_with_controls.
    unfold enrichment_of, override_to_apply.
    destruct (OCSFFinding.severity finding); [reflexivity |].
    destruct (first_true_override _) as [o|]; reflexivity.
  - symmetry in Hcontrols. apply fmap_nil_inv in Hcontrols.
    unfold enrichment_of, override_to_apply. rewrite Hcontrols. cbn.
    destruct (OCSFFinding.severity finding) eqn:Hsev;
      rewrite <- Hsev; rewrite enriched_as_default; reflexivity.
Qed.

(** [apply_mapping] returns exactly when every rule set loads and the
    enrichment of every finding succeeds, and then it returns the
    enrichments in the order of the findings. *)
Lemma enrich_findings_Forall2 (table : gmap string (list Mapping.control_info))
    (findings : list OCSFFinding.t) (enriched : list OCSFEnrichedFinding.t) :
  Mapping.enrich_findings table findings = Ok enriched <->
  Forall2 (fun f e => Mapping.enrich_finding table f = Ok e) findings enriched.
Proof.
  revert enriched. induction findings as [|f findings IH]; intros enriched; cbn.
  - split.
    + intros [= <-]. constructor.
    + intros Hall. apply Forall2_nil_inv_l in Hall. subst. reflexivity.
  - split.
    + intros Hrun. invert_bind Hrun. rename a into e.
      invert_bind Hrun. injection Hrun as <-.
      constructor; [assumption |]. apply IH. assumption.
    + intros Hall. apply Forall2_cons_inv_l in Hall
        as (e & enriched' & He & Hall & ->).
      rewrite He. cbn. apply IH in Hall. rewrite Hall. reflexivity.
Qed.

Lemma apply_mapping_spec dir (findings : list OCSFFinding.t)
    (map_ids : list string) (enriched : list OCSFEnrichedFinding.t) :
  Mapping.apply_mapping dir findings map_ids = Ok enriched <->
  Forall (fun id => is_ok (Mapping.load_mapping dir id) = true) map_ids /\
  Forall2 (fun f e => enrichment_of dir map_ids f = Ok e) findings enriched.
Proof.
  unfold Mapping.apply_mapping. split.
  - intros Hrun. invert_bind Hrun. rename a into mappings.
    split; [eapply load_mappings_loads; eassumption |].
    apply enrich_findings_Forall2 in Hrun.
    eapply Forall2_impl; [exact Hrun |].
    intros f e He. cbn in He. rewrite <- He. symmetry.
    apply enrich_finding_spec. assumption.
  - intros [Hloads Hall].
    destruct (load_mappings_total dir map_ids Hloads []) as [mappings Hload].
    rewrite Hload. cbn. apply enrich_findings_Forall2.
    eapply Forall2_impl; [exact Hall |].
    intros f e He. cbn in He. rewrite <- He.
    apply enrich_finding_spec. assumption.
Qed.

End EnrichAll.

Section MatchingRules.
Context `{PyEnv}.
Implicit Type dir : gmap string Mapping.yaml_file.

Lemma distinct_ids_elem (map_ids : list string) (id : string) :
  id ∈ distinct_ids map_ids <-> id ∈ map_ids.
Proof.
  induction map_ids as [|x map_ids IH]; cbn; [reflexivity |].
  rewrite !elem_of_cons, list_elem_of_filter, IH.
  destruct (decide (id = x)); tauto.
Qed.

Lemma distinct_ids_NoDup (map_ids : list string) : NoDup (distinct_ids map_ids).
Proof.
  induction map_ids as [|x map_ids IH]; cbn; constructor.
  - rewrite list_elem_of_filter. tauto.
  - apply NoDup_filter, IH.
Qed.

Lemma distinct_ids_sublist (map_ids : list string) :
  distinct_ids map_ids `sublist_of` map_ids.
Proof.
  induction map_ids as [|x map_ids IH]; cbn; [constructor |].
  apply sublist_skip. etransitivity; [apply sublist_filter | exact IH].
Qed.

(** A rule is among the matching rules of a finding exactly when it is a
    rule of one of the rule sets named by the caller and its source is the
    source key of the finding. *)
Lemma matching_rules_elem dir (map_ids : list string) (finding : OCSFFinding.t)
    (map_id : string) (rule : MappingRule.t) :
  (map_id, rule) ∈ matching_rules dir map_ids finding <->
  map_id ∈ map_ids /\
  (exists mapping, Mapping.load_mapping dir map_id = Ok mapping /\
                   rule ∈ ComplianceMapping.rules mapping) /\
  source_key finding = Some (MappingRule.source rule).
Proof.
  unfold matching_rules, matching_rules_by.
  destruct (source_key finding) as [key|].
  - rewrite list_elem_of_In, in_flat_map. split.
    + intros (id & Hid & Hin). apply list_elem_of_In in Hid.
      apply (proj1 (distinct_ids_elem _ _)) in Hid.
      destruct (Mapping.load_mapping dir id) as [mapping|e] eqn:Hload;
        [| destruct Hin].
      apply list_elem_of_In, list_elem_of_fmap in Hin as (r & [= -> ->] & Hr).
      apply list_elem_of_filter in Hr as [<- Hr].
      split; [exact Hid |].
      split; [exists mapping; split; assumption | reflexivity].
    + intros (Hid & (mapping & Hload & Hr) & [= ->]).
      exists map_id.
      split; [apply list_elem_of_In, (proj2 (distinct_ids_elem _ _)), Hid |].
      rewrite Hload. apply list_elem_of_In, list_elem_of_fmap.
      exists rule. split; [reflexivity |].
      apply list_elem_of_filter. auto.
  - split; [intros Hin; apply elem_of_nil in Hin; destruct Hin |].
    intros (_ & _ & [=]).
Qed.


Lemma enrichment_of_refs dir (map_ids : list string) (finding : OCSFFinding.t)
    (e : OCSFEnrichedFinding.t) :
  enrichment_of dir map_ids finding = Ok e ->
  OCSFEnrichedFinding.framework_refs e
  = map ref_of (matching_rules dir map_ids finding).
Proof.
  unfold enrichment_of.
  destruct (override_to_apply dir map_ids finding) as [o|].
  - destruct (Severity.validate o); [| discriminate].
    intros [= <-]. reflexivity.
  - intros [= <-]. reflexivity.
Qed.

Lemma enrichment_of_frame dir (map_ids : list string) (finding : OCSFFinding.t)
    (e : OCSFEnrichedFinding.t) :
  enrichment_of dir map_ids finding = Ok e ->
  same_but_severity (OCSFEnrichedFinding.base e) finding.
Proof.
  unfold enrichment_of.
  destruct (override_to_apply dir map_ids finding) as [o|].
  - destruct (Severity.validate o); [| discriminate].
    intros [= <-]. repeat split.
  - intros [= <-]. repeat split.
Qed.



(** Enriching the canonical fields of an enriched finding again gives the
    same enriched finding. *)
Lemma enrichment_of_again dir (map_ids : list string) (finding : OCSFFinding.t)
    (e : OCSFEnrichedFinding.t) :
  enrichment_of dir map_ids finding = Ok e ->
  enrichment_of dir map_ids (OCSFEnrichedFinding.base e) = Ok e.
Proof.
  unfold enrichment_of, override_to_apply.
  destruct finding as [? ? ? ? ? [s|] ? ? ? ? ? ? ? ? ?]; cbn [OCSFFinding.severity].
  - intros [= <-]. reflexivity.
  - match goal with
    | |- context [first_true_override ?l] =>
        destruct (first_true_override l) as [o|] eqn:Hfirst
    end.
    + destruct (Severity.validate o) as [s|]; [| discriminate].
      intros [= <-]. reflexivity.
    + intros [= <-]. cbn.
      unfold matching_rules, matching_rules_by, source_key in *. cbn in *.
      rewrite Hfirst. reflexivity.
Qed.

End MatchingRules.

Section EnricherClaims.
Context `{PyEnv}.
Implicit Type dir : gmap string Mapping.yaml_file.

(** C1 (amended): for every list of findings and every list of rule-set
    ids, each enriched finding that [apply_mapping] returns has as
    [framework_refs] the strings ["<ruleSetId>:<control>"], one per matching
    rule, rule sets in the order of the caller's list (a repeated id counts
    once, at its first position) and rules in file order; its length is the
    number of matching rules; and it is the empty list whenever the
    [check_id] of the finding is unset or empty, or no rule matches. *)
Theorem framework_refs_of_enriched dir (findings : list OCSFFinding.t)
    (map_ids : list string) (enriched : list OCSFEnrichedFinding.t) :
  Mapping.apply_mapping dir findings map_ids = Ok enriched ->
  forall (i : nat) (finding : OCSFFinding.t) (e : OCSFEnrichedFinding.t),
    findings !! i = Some finding -> enriched !! i = Some e ->
    OCSFEnrichedFinding.framework_refs e
    = map ref_of (matching_rules dir map_ids finding) /\
    length (OCSFEnrichedFinding.framework_refs e)
    = length (matching_rules dir map_ids finding) /\
    (OCSFFinding.check_id finding = None \/
     OCSFFinding.check_id finding = Some "" ->
     OCSFEnrichedFinding.framework_refs e = []) /\
    ((forall map_id mapping rule,
        map_id ∈ map_ids -> Mapping.load_mapping dir map_id = Ok mapping ->
        rule ∈ ComplianceMapping.rules mapping ->
        Some (MappingRule.source rule) <> source_key_as_claimed finding) ->
     OCSFEnrichedFinding.framework_refs e = []).
Proof.
  intros Hrun i finding e Hf He.
  apply apply_mapping_spec in Hrun as [_ Hall].
  pose proof (Forall2_lookup_lr _ _ _ _ _ _ Hall Hf He) as Hone. cbn in Hone.
  apply enrichment_of_refs in Hone.
  split; [exact Hone |]. split; [rewrite Hone; apply length_map |]. split.
  - intros Hunset. rewrite Hone.
    unfold matching_rules, matching_rules_by, source_key.
    destruct Hunset as [-> | ->]; reflexivity.
  - intros Hnomatch. rewrite Hone.
    destruct (matching_rules dir map_ids finding) as [|[map_id rule] rules] eqn:Hm;
      [reflexivity |].
    assert (Hin : (map_id, rule) ∈ matching_rules dir map_ids finding)
      by (rewrite Hm; left).
    apply matching_rules_elem in Hin as (Hid & (mapping & Hload & Hrule) & Hkey).
    destruct (Hnomatch map_id mapping rule Hid Hload Hrule).
    unfold source_key in Hkey. unfold source_key_as_claimed.
    destruct (OCSFFinding.check_id finding) as [c|]; [| discriminate Hkey].
    destruct (String.eqb c ""); [discriminate Hkey |]. congruence.
Qed.


(** C8: when [apply_mapping] returns, applying it with the same ids to the
    canonical fields of the enriched findings returns too, with the same
    [framework_refs], finding by finding. *)
Theorem enrichment_idempotent dir (findings : list OCSFFinding.t)
    (map_ids : list string) (enriched : list OCSFEnrichedFinding.t) :
  Mapping.apply_mapping dir findings map_ids = Ok enriched ->
  exists enriched',
    Mapping.apply_mapping dir (map OCSFEnrichedFinding.base enriched) map_ids
    = Ok enriched' /\
    map OCSFEnrichedFinding.framework_refs enriched'
    = map OCSFEnrichedFinding.framework_refs enriched.
Proof.
  intros Hrun. apply apply_mapping_spec in Hrun as [Hloads Hall].
  exists enriched. split; [| reflexivity].
  apply apply_mapping_spec. split; [exact Hloads |].
  apply Forall2_fmap_l.
  induction Hall as [|f e fs es He _ IH]; constructor; [| exact IH].
  eapply enrichment_of_again, He.
Qed.


End EnricherClaims.

(** ** Closed instances *)

Lemma framework_refs_of_enriched_witness :
  exists e,
    @Mapping.apply_mapping example_env example_dir
      [example_finding (Some "check_a") None] ["nist"; "cis"; "nist"] = Ok [e] /\
    OCSFEnrichedFinding.framework_refs e
    = ["nist:PR.AC-1"; "cis:CIS-1.1"; "cis:CIS-1.3"].
Proof.
  eexists. split; [vm_compute; reflexivity |].
  match goal with
  | |- OCSFEnrichedFinding.framework_refs ?e = _ =>
      refine (proj1 (@framework_refs_of_enriched example_env example_dir
                       [example_finding (Some "check_a") None]
                       ["nist"; "cis"; "nist"] [e] _ 0 _ _ eq_refl eq_refl))
  end.
  vm_compute. reflexivity.
Defined.

(** C1, as stated, fails: a finding whose [check_id] is the empty string
    gets no reference, although the rule with the source ["prowler:"]
    matches its product and [check_id]. *)
Lemma empty_check_id_gets_no_refs :
  ~ (forall (env : PyEnv) (dir : gmap string Mapping.yaml_file)
            (findings : list OCSFFinding.t) (map_ids : list string)
            (enriched : list OCSFEnrichedFinding.t),
       @Mapping.apply_mapping env dir findings map_ids = Ok enriched ->
       forall i finding e,
         findings !! i = Some finding -> enriched !! i = Some e ->
         OCSFEnrichedFinding.framework_refs e
         = map ref_of
             (@matching_rules_by env source_key_as_claimed dir map_ids finding)).
Proof.
  intros Hclaim.
  destruct (@Mapping.apply_mapping example_env dir_with_empty_check_rule
              [example_finding (Some "") None] ["cis"])
    as [enriched|] eqn:Hrun; [| vm_compute in Hrun; discriminate Hrun].
  pose proof (Hclaim _ _ _ _ _ Hrun 0) as Hc.
  vm_compute in Hrun. injection Hrun as <-.
  specialize (Hc _ _ eq_refl eq_refl).
  vm_compute in Hc. discriminate Hc.
Qed.



Lemma enrichment_idempotent_witness :
  exists enriched enriched',
    @Mapping.apply_mapping example_env example_dir
      [example_finding (Some "check_a") None; example_finding None None]
      ["nist"; "cis"] = Ok enriched /\
    @Mapping.apply_mapping example_env example_dir
      (map OCSFEnrichedFinding.base enriched) ["nist"; "cis"] = Ok enriched' /\
    map OCSFEnrichedFinding.framework_refs enriched'
    = map OCSFEnrichedFinding.framework_refs enriched.
Proof.
  eexists.
  refine (let Hrun := _ in
          match @enrichment_idempotent example_env example_dir
                  [example_finding (Some "check_a") None; example_finding None None]
                  ["nist"; "cis"] _ Hrun with
          | ex_intro _ enriched' Hagain =>
              ex_intro _ enriched' (conj Hrun Hagain)
          end).
  vm_compute. reflexivity.
Defined.



(* ================================================================== *)
(** * Properties of the aggregator *)
(* ================================================================== *)

Section Frameworks.

Lemma add_frameworks_elem (refs : list string) :
  forall (acc : gset string) (x : string),
    x ∈ Summarize.add_frameworks acc refs <->
    x ∈ acc \/
    exists ref, ref ∈ refs /\ str_contains ":" ref = true /\ x = before_colon ref.
Proof.
  unfold Summarize.add_frameworks.
  induction refs as [|ref refs IH]; intros acc x; cbn [foldl].
  - split; [auto |]. intros [Hx | (ref & Hin & _)]; [exact Hx |].
    apply elem_of_nil in Hin. destruct Hin.
  - rewrite IH. split.
    + intros [Hx | (r & Hin & Hc & Hx)].
      * destruct (str_contains ":" ref) eqn:Hc; [| auto].
        apply elem_of_union in Hx as [Hx | Hx]; [| auto].
        apply elem_of_singleton in Hx. right. exists ref.
        split; [left | auto].
      * right. exists r. split; [right; exact Hin | auto].
    + intros [Hx | (r & Hin & Hc & Hx)].
      * left. destruct (str_contains ":" ref); [| exact Hx].
        apply elem_of_union. auto.
      * apply elem_of_cons in Hin as [-> | Hin].
        -- left. rewrite Hc. apply elem_of_union. left.
           apply elem_of_singleton. exact Hx.
        -- right. exists r. auto.
Qed.

Lemma collected_frameworks_elem (findings : list Summarize.finding) :
  forall (acc : gset string) (x : string),
    x ∈ foldl (fun acc y =>
                 if Summarize.has_framework_refs y
                    && match Summarize.framework_refs y with
                       | [] => false
                       | _ :: _ => true
                       end
                 then Summarize.add_frameworks acc (Summarize.framework_refs y)
                 else acc)
              acc findings <->
    x ∈ acc \/ framework_id_seen findings x.
Proof.
  unfold framework_id_seen.
  induction findings as [|y findings IH]; intros acc x; cbn [foldl].
  - split; [auto |]. intros [Hx | (f & ref & Hin & _)]; [exact Hx |].
    apply elem_of_nil in Hin. destruct Hin.
  - rewrite IH. clear IH.
    assert (Hstep :
      x ∈ (if Summarize.has_framework_refs y
              && match Summarize.framework_refs y with
                 | [] => false
                 | _ :: _ => true
                 end
           then Summarize.add_frameworks acc (Summarize.framework_refs y)
           else acc) <->
      x ∈ acc \/
      exists ref, ref ∈ Summarize.framework_refs y /\
                  str_contains ":" ref = true /\ x = before_colon ref).
    { destruct y as [f|e]; cbn.
      - split; [auto |]. intros [Hx | (ref & Hin & _)]; [exact Hx |].
        apply elem_of_nil in Hin. destruct Hin.
      - destruct (OCSFEnrichedFinding.framework_refs e) as [|r rs] eqn:Hrefs.
        + split; [auto |]. intros [Hx | (ref & Hin & _)]; [exact Hx |].
          apply elem_of_nil in Hin. destruct Hin.
        + apply add_frameworks_elem. }
    rewrite Hstep. split.
    + intros [[Hx | (ref & Hin & Hc & Hx)] | (f & ref & Hf & Hin & Hc & Hx)].
      * auto.
      * right. exists y, ref. split; [left | auto].
      * right. exists f, ref. split; [right; exact Hf | auto].
    + intros [Hx | (f & ref & Hf & Hin & Hc & Hx)]; [auto |].
      apply elem_of_cons in Hf as [-> | Hf].
      * left. right. exists ref. auto.
      * right. exists f, ref. auto.
Qed.

#[local] Instance string_leb_total : Total (fun x y : string => String.leb x y).
Proof.
  intros x y. destruct (String.leb_total x y) as [Hxy | Hyx].
  - left. rewrite Hxy. exact I.
  - right. rewrite Hyx. exact I.
Qed.

(** When the first finding of the list is an enriched one, the summary
    lists the framework ids of all the findings, sorted and without
    repetition. *)
Lemma frameworks_covered_when_first_is_enriched (e : OCSFEnrichedFinding.t)
    (findings : list Summarize.finding) :
  sorted_framework_ids (Summarize.Enriched e :: findings)
    (Summarize.frameworks_covered_of (Summarize.Enriched e :: findings)).
Proof.
  unfold Summarize.frameworks_covered_of.
  cbn [Summarize.has_framework_refs]. unfold Summarize.sorted.
  repeat split.
  - apply (Sorted_merge_sort (fun x y : string => String.leb x y)).
  - rewrite merge_sort_Permutation. apply NoDup_elements.
  - rewrite merge_sort_Permutation, elem_of_elements, collected_frameworks_elem.
    intros [Hx | Hx]; [| exact Hx]. apply elem_of_empty in Hx. destruct Hx.
  - rewrite merge_sort_Permutation, elem_of_elements, collected_frameworks_elem.
    auto.
Qed.

End Frameworks.

(** C6 (the code fails the claim): for a plain finding followed by an
    enriched finding with the reference [cis_aws_1_4:CIS-1.3], the summary
    covers no framework, while [cis_aws_1_4] is the framework id of a
    reference of the list; with the two findings in the other order the
    summary covers [cis_aws_1_4]. *)
Theorem frameworks_after_plain_first_are_missed :
  (exists summary,
     Summarize.generate_finding_summary plain_then_enriched = Ok summary /\
     FindingSummary.frameworks_covered summary = []) /\
  framework_id_seen plain_then_enriched "cis_aws_1_4" /\
  ~ sorted_framework_ids plain_then_enriched
      (Summarize.frameworks_covered_of plain_then_enriched) /\
  (exists summary,
     Summarize.generate_finding_summary (rev plain_then_enriched) = Ok summary /\
     FindingSummary.frameworks_covered summary = ["cis_aws_1_4"]).
Proof.
  assert (Hseen : framework_id_seen plain_then_enriched "cis_aws_1_4").
  { exists (Summarize.Enriched example_enriched), "cis_aws_1_4:CIS-1.3".
    repeat split.
    - right. left.
    - left. }
  split; [| split; [exact Hseen | split]].
  - eexists. split; [reflexivity | reflexivity].
  - intros (_ & _ & Hall). apply Hall in Hseen.
    cbn in Hseen. apply elem_of_nil in Hseen. exact Hseen.
  - eexists. split; [vm_compute; reflexivity | reflexivity].
Qed.

(* ================================================================== *)
(** * Further properties of the normaliser *)
(* ================================================================== *)

Section NestedValues.

Lemma get_nested_value_null (keys : list string) :
  Parser._get_nested_value JNull keys = JNull.
Proof. destruct keys; reflexivity. Qed.

(** Following a path that is the concatenation of two paths is following
    the first and then, from the value it gives, the second: a path that
    stops at a missing key gives [None] however it goes on. *)
Theorem get_nested_value_app (data : json) (keys keys' : list string) :
  Parser._get_nested_value data (keys ++ keys')
  = Parser._get_nested_value (Parser._get_nested_value data keys) keys'.
Proof.
  revert data. induction keys as [|key keys IH]; intros data; [reflexivity |].
  cbn [app Parser._get_nested_value].
  destruct data as [ | | | | | | m ];
    try (rewrite get_nested_value_null; reflexivity).
  destruct (m !! key) as [v|]; [apply IH |].
  rewrite get_nested_value_null. reflexivity.
Qed.

End NestedValues.

Section CaseAndSpace.
Context `{PyEnv}.

Lemma lower_char_idempotent (c : ascii) :
  lower_char (lower_char c) = lower_char c.
Proof. destruct c as [[] [] [] [] [] [] [] []]; reflexivity. Qed.

Lemma is_space_lower_char (c : ascii) : is_space (lower_char c) = is_space c.
Proof. destruct c as [[] [] [] [] [] [] [] []]; reflexivity. Qed.

Lemma lower_idempotent (s : string) : lower (lower s) = lower s.
Proof.
  induction s as [|c s IH]; cbn; [reflexivity |].
  rewrite lower_char_idempotent, IH. reflexivity.
Qed.

Lemma lower_lstrip (s : string) : lower (lstrip s) = lstrip (lower s).
Proof.
  induction s as [|c s IH]; cbn; [reflexivity |].
  rewrite is_space_lower_char. destruct (is_space c); [exact IH | reflexivity].
Qed.

Lemma lower_rstrip (s : string) : lower (rstrip s) = rstrip (lower s).
Proof.
  induction s as [|c s IH]; cbn; [reflexivity |].
  rewrite <- IH, is_space_lower_char.
  destruct (rstrip s) as [|c' r]; cbn; [destruct (is_space c) |]; reflexivity.
Qed.

Lemma lower_strip (s : string) : lower (strip s) = strip (lower s).
Proof. unfold strip. rewrite lower_rstrip, lower_lstrip. reflexivity. Qed.

Lemma rstrip_idempotent (s : string) : rstrip (rstrip s) = rstrip s.
Proof.
  induction s as [|c s IH]; cbn; [reflexivity |].
  destruct (rstrip s) as [|c' r] eqn:Hr.
  - destruct (is_space c) eqn:Hc; cbn; [reflexivity |]. rewrite Hc. reflexivity.
  - cbn [rstrip]. fold rstrip. change (rstrip (String c' r)) with
      (match rstrip r with
       | EmptyString => if is_space c' then EmptyString else String c' EmptyString
       | r' => String c' r'
       end) in IH |- *.
    rewrite IH. reflexivity.
Qed.

(** The first character of a non-empty right-stripped string is the first
    character of the string. *)
Lemma rstrip_head (c : ascii) (s : string) :
  is_space c = false -> exists r, rstrip (String c s) = String c r.
Proof.
  intros Hc. cbn. destruct (rstrip s) as [|c' r].
  - rewrite Hc. eauto.
  - eauto.
Qed.

Lemma lstrip_head (s : string) :
  lstrip s = EmptyString \/
  exists c r, lstrip s = String c r /\ is_space c = false.
Proof.
  induction s as [|c s IH]; cbn; [auto |].
  destruct (is_space c) eqn:Hc; [exact IH | eauto].
Qed.

Lemma strip_idempotent (s : string) : strip (strip s) = strip s.
Proof.
  unfold strip.
  destruct (lstrip_head s) as [-> | (c & r & -> & Hc)]; [reflexivity |].
  destruct (rstrip_head c r Hc) as [r' Hr']. rewrite Hr'.
  cbn [lstrip]. rewrite Hc, <- Hr'. apply rstrip_idempotent.
Qed.

Lemma lower_empty (s : string) : lower s = EmptyString <-> s = EmptyString.
Proof. destruct s; cbn; split; congruence. Qed.

Lemma normalize_string (V : Type) (table : list (string * V)) (s : string) :
  literal_get table "" = None ->
  (if negb (truthy (JStr s)) then None
   else literal_get table (strip (lower (str (JStr s)))))
  = literal_get table (strip (lower s)).
Proof.
  intros Hempty. cbn [truthy str].
  destruct (String.eqb_spec s "") as [->|Hne]; cbn; [| reflexivity].
  symmetry. exact Hempty.
Qed.

(** Normalisation of a severity or status string does not depend on the
    case of its letters, nor on the white space around it. *)
Theorem normalize_ignores_case_and_space (s : string) :
  Parser._normalize_severity (JStr (lower s)) = Parser._normalize_severity (JStr s) /\
  Parser._normalize_severity (JStr (strip s)) = Parser._normalize_severity (JStr s) /\
  Parser._normalize_status (JStr (lower s)) = Parser._normalize_status (JStr s) /\
  Parser._normalize_status (JStr (strip s)) = Parser._normalize_status (JStr s).
Proof.
  unfold Parser._normalize_severity, Parser._normalize_status.
  rewrite !normalize_string by reflexivity.
  rewrite lower_idempotent, lower_strip, strip_idempotent. auto.
Qed.

(** The names of the canonical values are fixed points: normalising the
    name of a severity or of a status gives that severity or status back,
    and the name passes the validation of the severity field. *)
Theorem canonical_names_normalize_to_themselves :
  (forall s : Severity.t,
     Parser._normalize_severity (JStr (Severity.name s)) = Some s /\
     Severity.validate (Severity.name s) = Some s) /\
  (forall s : Status.t,
     Parser._normalize_status (JStr (Status.name s)) = Some s).
Proof. split; intros []; repeat split; reflexivity. Qed.

End CaseAndSpace.

Section ParseFile.
Context `{PyEnv}.

Lemma parse_single_finding_source (raw_finding : gmap string json)
    (provider : Provider.t) (product : string) (now : datetime)
    (finding : OCSFFinding.t) :
  Parser._parse_single_finding raw_finding provider product now = Ok finding ->
  OCSFFinding.provider finding = provider /\
  OCSFFinding.product finding = product.
Proof.
  unfold Parser._parse_single_finding. intros Hparse.
  do 5 invert_bind Hparse.
  injection Hparse as <-. split; reflexivity.
Qed.

Lemma parse_records_source (data : list json) (provider : Provider.t)
    (product : string) (clock : nat -> datetime) :
  forall (i : nat) (findings : list OCSFFinding.t),
    Parser.parse_records i data provider product clock = Ok findings ->
    Forall (fun f => OCSFFinding.provider f = provider /\
                     OCSFFinding.product f = product) findings.
Proof.
  induction data as [|raw_finding data IH]; intros i findings Hparse; cbn in Hparse.
  - injection Hparse as <-. constructor.
  - destruct raw_finding as [ | | | | | | m ]; try discriminate Hparse.
    destruct (Parser._parse_single_finding m provider product (clock i))
      as [finding|e] eqn:Hone; [| discriminate Hparse].
    invert_bind Hparse. injection Hparse as <-.
    constructor; [eapply parse_single_finding_source, Hone | eauto].
Qed.

(** What [parse_ocsf] returns: one finding per record of the file, in the
    order of the file (a single object is a file of one record), each with
    the record as its [raw] field and with the provider and the product of
    the caller. *)
Theorem parse_ocsf_findings (path : Parser.json_file) (provider : Provider.t)
    (product : string) (clock : nat -> datetime)
    (findings : list OCSFFinding.t) :
  Parser.parse_ocsf path provider product clock = Ok findings ->
  exists data records,
    path = Parser.Json data /\ records_of data = Some records /\
    map (fun f => JDict (OCSFFinding.raw f)) findings = records /\
    length findings = length records /\
    Forall (fun f => OCSFFinding.provider f = provider /\
                     OCSFFinding.product f = product) findings.
Proof.
  intros Hparse.
  assert (Hrecords : exists data records,
             path = Parser.Json data /\ records_of data = Some records /\
             Parser.parse_records 0 records provider product clock = Ok findings).
  { destruct path as [ | | data]; try discriminate Hparse.
    exists data. destruct data as [ | | | | | l | m ]; try discriminate Hparse;
      eexists; repeat split; exact Hparse. }
  destruct Hrecords as (data & records & -> & Hrecords & Hrun).
  exists data, records.
  pose proof (parse_records_keep_raw _ _ _ _ _ _ Hrun) as Hraw.
  repeat split; try assumption.
  - rewrite <- Hraw. rewrite length_map. reflexivity.
  - eapply parse_records_source, Hrun.
Qed.




End ParseFile.

Section ResourcesBranch.
Context `{PyEnv}.

Ltac resources_shape raw Hshape :=
  unfold resources_are_mappings in Hshape;
  unfold Parser._extract_resource_id, Parser._extract_account_id,
    Parser._extract_region, dict_get_default;
  destruct (raw !! "resources")
    as [[ | b | n | x | s | [|[ | | | | | | first_resource] l] | m ]|];
  try (destruct Hshape; fail);
  try (cbn; eauto; fail);
  try (apply Forall_cons in Hshape as [Hhead _]; discriminate Hhead).

Lemma extract_resource_id_returns (raw : gmap string json) :
  resources_are_mappings raw ->
  exists out, Parser._extract_resource_id raw = Ok out.
Proof.
  intros Hshape. resources_shape raw Hshape.
  cbn. destruct (first_resource !! "uid"); cbn; [eauto |].
  destruct (first_resource !! "name"); cbn; eauto.
Qed.

Lemma extract_account_id_returns (raw : gmap string json) :
  resources_are_mappings raw ->
  exists out, Parser._extract_account_id raw = Ok out.
Proof.
  intros Hshape. resources_shape raw Hshape.
  cbn. destruct (first_resource !! "account_uid"); cbn; eauto.
Qed.

Lemma extract_region_returns (raw : gmap string json) :
  resources_are_mappings raw ->
  exists out, Parser._extract_region raw = Ok out.
Proof.
  intros Hshape. resources_shape raw Hshape.
  cbn. destruct (first_resource !! "region"); cbn; eauto.
Qed.

(** A record whose [resources] entry is absent, null or a list of mappings
    makes no extraction function raise, and the normaliser accepts it as
    soon as its [class_uid] and [class_name] pass the validation of their
    fields. *)
Theorem list_of_mappings_is_accepted (raw : gmap string json)
    (provider : Provider.t) (product : string) (now : datetime) :
  resources_are_mappings raw ->
  (exists out, Parser._extract_resource_id raw = Ok out) /\
  (exists out, Parser._extract_account_id raw = Ok out) /\
  (exists out, Parser._extract_region raw = Ok out) /\
  (is_ok (Parser.validate_class_uid (dict_get raw "class_uid")) = true ->
   is_ok (Parser.validate_class_name (dict_get raw "class_name")) = true ->
   exists finding,
     Parser._parse_single_finding raw provider product now = Ok finding).
Proof.
  intros Hshape.
  destruct (extract_resource_id_returns raw Hshape) as [r Hr].
  destruct (extract_account_id_returns raw Hshape) as [a Ha].
  destruct (extract_region_returns raw Hshape) as [g Hg].
  repeat split; eauto.
  intros Huid Hname. unfold Parser._parse_single_finding.
  rewrite Hr, Ha, Hg. cbn [bind].
  destruct (Parser.validate_class_uid _); [| discriminate Huid].
  destruct (Parser.validate_class_name _); [| discriminate Hname].
  cbn. eauto.
Qed.

(** The first element of [resources] comes first and is not tested: when
    it is a mapping with the key [uid] (resp. [account_uid], [region]), the
    function returns the string form of the value at that key whatever the
    value and whatever else the record holds, so a null [uid] gives the
    string ["None"]. *)
Theorem first_resource_value_is_returned_untested (raw : gmap string json)
    (first_resource : gmap string json) (others : list json) (v : json) :
  raw !! "resources" = Some (JList (JDict first_resource :: others)) ->
  (first_resource !! "uid" = Some v ->
   Parser._extract_resource_id raw = Ok (Some (str v))) /\
  (first_resource !! "account_uid" = Some v ->
   Parser._extract_account_id raw = Ok (Some (str v))) /\
  (first_resource !! "region" = Some v ->
   Parser._extract_region raw = Ok (Some (str v))).
Proof.
  intros Hres.
  unfold Parser._extract_resource_id, Parser._extract_account_id,
    Parser._extract_region, dict_get_default.
  rewrite Hres. cbn.
  repeat split; intros ->; reflexivity.
Qed.

End ResourcesBranch.

Lemma parse_ocsf_findings_witness :
  exists findings,
    @Parser.parse_ocsf example_env (Parser.Json (JDict example_record))
      Provider.aws "prowler" (fun _ => example_now) = Ok findings /\
    length findings = 1.
Proof.
  eexists. split; [vm_compute; reflexivity |].
  match goal with
  | |- length ?fs = _ =>
      destruct (@parse_ocsf_findings example_env
                  (Parser.Json (JDict example_record)) Provider.aws "prowler"
                  (fun _ => example_now) fs)
        as (data & records & Hpath & Hrecords & _ & Hlen & _)
  end.
  - vm_compute. reflexivity.
  - injection Hpath as <-. injection Hrecords as <-. exact Hlen.
Defined.


Lemma list_of_mappings_is_accepted_witness :
  exists finding,
    @Parser._parse_single_finding example_env record_with_named_resource
      Provider.aws "prowler" example_now = Ok finding.
Proof.
  refine (proj2 (proj2 (proj2 (@list_of_mappings_is_accepted example_env
            record_with_named_resource Provider.aws "prowler" example_now _)))
            eq_refl eq_refl).
  unfold resources_are_mappings.
  change (record_with_named_resource !! "resources")
    with (Some (JList [JDict {[ "name" := JStr "bucket" ]}])).
  repeat constructor.
Defined.

Lemma first_resource_value_is_returned_untested_witness :
  @Parser._extract_resource_id example_env record_with_null_uid
  = Ok (Some "None").
Proof.
  refine (proj1 (@first_resource_value_is_returned_untested example_env
            record_with_null_uid {[ "uid" := JNull ]} [] JNull _) _);
    vm_compute; reflexivity.
Defined.

(* ================================================================== *)
(** * Further properties of the mapping loader and of the enricher *)
(* ================================================================== *)

#[local] Instance leb_total : Total (fun x y : string => String.leb x y).
Proof.
  intros x y. destruct (String.leb_total x y) as [Hxy | Hyx].
  - left. rewrite Hxy. exact I.
  - right. rewrite Hyx. exact I.
Qed.

Section LoaderMore.
Context `{PyEnv}.
Implicit Type dir : gmap string Mapping.yaml_file.


Lemma categories_lookup (categories : list MappingCategory.t) (name : string) :
  forall acc : gmap string (list string),
    foldl (fun controls_by_category category =>
             <[MappingCategory.name category :=
                 MappingCategory.controls category]> controls_by_category)
          acc categories !! name
    = match last_category_named name categories with
      | Some c => Some (MappingCategory.controls c)
      | None => acc !! name
      end.
Proof.
  unfold last_category_named.
  induction categories as [|c categories IH]; intros acc; cbn [foldl].
  - reflexivity.
  - rewrite IH, filter_cons.
    destruct (decide (MappingCategory.name c = name)) as [<-|Hne].
    + rewrite last_cons. destruct (last _); [reflexivity |].
      apply lookup_insert_eq.
    + destruct (last _); [reflexivity |]. apply lookup_insert_ne, Hne.
Qed.

Lemma categories_not_empty (c : MappingCategory.t)
    (categories : list MappingCategory.t) :
  foldl (fun controls_by_category category =>
           <[MappingCategory.name category :=
               MappingCategory.controls category]> controls_by_category)
        (∅ : gmap string (list string)) (c :: categories) <> ∅.
Proof.
  intros Hempty.
  destruct (last (c :: categories)) as [cl|] eqn:Hlast;
    [| apply last_None in Hlast; discriminate Hlast].
  pose proof (categories_lookup (c :: categories) (MappingCategory.name cl) ∅)
    as Hlookup.
  rewrite Hempty, lookup_empty in Hlookup.
  unfold last_category_named in Hlookup.
  destruct (last (filter _ (c :: categories))) as [c'|] eqn:Hfilter;
    [discriminate Hlookup |].
  apply last_None in Hfilter.
  apply last_Some_elem_of in Hlast.
  assert (Hin : cl ∈ filter (fun c0 => MappingCategory.name c0
                                       = MappingCategory.name cl)
                            (c :: categories))
    by (apply list_elem_of_filter; auto).
  rewrite Hfilter in Hin. apply elem_of_nil in Hin. exact Hin.
Qed.

Lemma sorted_distinct_spec (l : list string) :
  Sorted String.leb (Mapping.sorted_distinct l) /\
  NoDup (Mapping.sorted_distinct l) /\
  forall x, x ∈ Mapping.sorted_distinct l <-> x ∈ l.
Proof.
  unfold Mapping.sorted_distinct. repeat split.
  - apply (Sorted_merge_sort (fun x y : string => String.leb x y)).
  - rewrite merge_sort_Permutation. apply NoDup_elements.
  - rewrite merge_sort_Permutation, elem_of_elements, elem_of_list_to_set. auto.
  - rewrite merge_sort_Permutation, elem_of_elements, elem_of_list_to_set. auto.
Qed.

(** [get_framework_controls] fails exactly as [load_mapping] does; what it
    returns is never empty: for a mapping without categories it is the one
    category ["All Controls"] with the sorted list of the distinct targets
    of the rules, and otherwise each category name with the controls of the
    last category of that name. *)
Theorem get_framework_controls_spec dir (map_id : string) :
  (forall e, Mapping.get_framework_controls dir map_id = Raise e <->
             Mapping.load_mapping dir map_id = Raise e) /\
  (forall mapping,
     Mapping.load_mapping dir map_id = Ok mapping ->
     exists controls,
       Mapping.get_framework_controls dir map_id = Ok controls /\
       controls <> ∅ /\
       (ComplianceMapping.categories mapping = [] ->
        exists all_controls,
          controls = {[ "All Controls" := all_controls ]} /\
          Sorted String.leb all_controls /\ NoDup all_controls /\
          forall c, c ∈ all_controls <->
                    exists rule, rule ∈ ComplianceMapping.rules mapping /\
                                 MappingRule.target rule = c) /\
       (ComplianceMapping.categories mapping <> [] ->
        forall name,
          controls !! name
          = MappingCategory.controls
              <$> last_category_named name (ComplianceMapping.categories mapping))).
Proof.
  unfold Mapping.get_framework_controls. split.
  - intros e. destruct (Mapping.load_mapping dir map_id) as [mapping|e'];
      cbn [bind]; [| split; intros [= ->]; reflexivity].
    destruct (dict_is_empty _); split; discriminate.
  - intros mapping ->. cbn [bind].
    destruct (ComplianceMapping.categories mapping) as [|c categories] eqn:Hcat.
    + cbn. eexists. split; [reflexivity |]. split; [| split].
      * apply insert_non_empty.
      * intros _. eexists. split; [reflexivity |].
        destruct (sorted_distinct_spec
                    (map MappingRule.target (ComplianceMapping.rules mapping)))
          as (Hsorted & Hnodup & Helem).
        repeat split; try assumption.
        -- intros Hc. apply Helem, list_elem_of_fmap in Hc as (rule & -> & Hr).
           eauto.
        -- intros (rule & Hr & <-). apply Helem, list_elem_of_fmap. eauto.
      * intros Hne. destruct Hne. reflexivity.
    + pose proof (categories_not_empty c categories) as Hne.
      unfold dict_is_empty.
      match goal with
      | |- context [Nat.eqb (size ?m) 0] =>
          destruct (Nat.eqb_spec (size m) 0) as [Hsize|_]
      end.
      { apply map_size_empty_iff in Hsize. destruct (Hne Hsize). }
      eexists. split; [reflexivity |]. split; [exact Hne | split].
      * discriminate.
      * intros _ name. rewrite categories_lookup.
        destruct (last_category_named name (c :: categories)); reflexivity.
Qed.

(** [validate_mapping_file] accepts a file exactly when [load_mapping]
    loads it, and reports an error exactly when it does not accept. *)
Theorem validate_agrees_with_load dir (map_id : string) :
  (Mapping.validate_mapping_file (dir !! map_id)).1
  = is_ok (Mapping.load_mapping dir map_id) /\
  ((Mapping.validate_mapping_file (dir !! map_id)).1 = true <->
   (Mapping.validate_mapping_file (dir !! map_id)).2 = []).
Proof.
  unfold Mapping.validate_mapping_file, Mapping.load_mapping.
  destruct (dir !! map_id) as [[ | | [ | | | | | | data ] ]|];
    try (split; [reflexivity | split; discriminate]).
  destruct (Validate.compliance_mapping data);
    (split; [reflexivity | split; [reflexivity || discriminate | reflexivity || discriminate]]).
Qed.

End LoaderMore.

Lemma get_framework_controls_spec_witness :
  exists controls,
    @Mapping.get_framework_controls example_env dir_with_categories "cis"
    = Ok controls /\
    controls !! "IAM" = Some ["CIS-1.2"].
Proof.
  destruct (@Mapping.load_mapping example_env dir_with_categories "cis")
    as [mapping|] eqn:Hload; [| vm_compute in Hload; discriminate Hload].
  destruct (proj2 (@get_framework_controls_spec example_env
                     dir_with_categories "cis") mapping Hload)
    as (controls & Hrun & _ & _ & Hnamed).
  exists controls. split; [exact Hrun |].
  rewrite Hnamed.
  - vm_compute in Hload. injection Hload as <-. reflexivity.
  - vm_compute in Hload. injection Hload as <-. discriminate.
Defined.

Section EnricherMore.
Context `{PyEnv}.
Implicit Type dir : gmap string Mapping.yaml_file.



Lemma load_mappings_first_failure dir (loaded : list string) (map_id : string)
    (others : list string) (e : exn) :
  all_load dir loaded ->
  Mapping.load_mapping dir map_id = Raise e ->
  forall acc,
    Mapping.load_mappings dir (loaded ++ map_id :: others) acc = Raise e.
Proof.
  intros Hloaded Hfail.
  induction Hloaded as [|id loaded Hid _ IH]; intros acc; cbn.
  - rewrite Hfail. reflexivity.
  - destruct (Mapping.load_mapping dir id); [apply IH | discriminate Hid].
Qed.

(** A rule set that does not load makes the whole call fail, with the
    exception of the first id of the list that does not load, whatever the
    findings: no finding is enriched with the rule sets that do load. *)
Theorem apply_mapping_load_failure dir (findings : list OCSFFinding.t)
    (loaded : list string) (map_id : string) (others : list string) (e : exn) :
  all_load dir loaded ->
  Mapping.load_mapping dir map_id = Raise e ->
  Mapping.apply_mapping dir findings (loaded ++ map_id :: others) = Raise e.
Proof.
  intros Hloaded Hfail. unfold Mapping.apply_mapping.
  rewrite (load_mappings_first_failure dir loaded map_id others e Hloaded Hfail).
  reflexivity.
Qed.

(** Findings are enriched independently of each other: enriching the
    concatenation of two lists returns exactly when enriching each list
    does, and then returns the concatenation of the two results. *)
Theorem apply_mapping_app dir (findings findings' : list OCSFFinding.t)
    (map_ids : list string) (enriched : list OCSFEnrichedFinding.t) :
  Mapping.apply_mapping dir (findings ++ findings') map_ids = Ok enriched <->
  exists e1 e2,
    Mapping.apply_mapping dir findings map_ids = Ok e1 /\
    Mapping.apply_mapping dir findings' map_ids = Ok e2 /\
    enriched = (e1 ++ e2)%list.
Proof.
  rewrite apply_mapping_spec, Forall2_app_inv_l. split.
  - intros (Hloads & e1 & e2 & H1 & H2 & ->).
    exists e1, e2. rewrite !apply_mapping_spec. auto.
  - intros (e1 & e2 & H1 & H2 & ->).
    apply apply_mapping_spec in H1 as [Hloads H1].
    apply apply_mapping_spec in H2 as [_ H2].
    split; [exact Hloads |]. exists e1, e2. auto.
Qed.

Lemma distinct_ids_of_NoDup (map_ids : list string) :
  NoDup map_ids -> distinct_ids map_ids = map_ids.
Proof.
  induction 1 as [|x l Hx _ IH]; cbn; [reflexivity |].
  rewrite IH. f_equal.
  clear IH. induction l as [|y l IH]; [reflexivity |].
  apply not_elem_of_cons in Hx as [Hne Hx].
  rewrite filter_cons_True by congruence. rewrite IH by assumption.
  reflexivity.
Qed.

Lemma distinct_ids_idempotent (map_ids : list string) :
  distinct_ids (distinct_ids map_ids) = distinct_ids map_ids.
Proof. apply distinct_ids_of_NoDup, distinct_ids_NoDup. Qed.

Lemma distinct_ids_app (l1 l2 : list string) :
  distinct_ids (l1 ++ l2)
  = (distinct_ids l1 ++ filter (fun id => id ∉ l1) (distinct_ids l2))%list.
Proof.
  induction l1 as [|x l1 IH]; cbn.
  - symmetry. apply filter_not_in_nil.
  - rewrite IH, filter_app, list_filter_filter. f_equal. f_equal.
    apply list_filter_iff. intros id. rewrite not_elem_of_cons. tauto.
Qed.

Lemma all_load_distinct dir (map_ids : list string) :
  all_load dir (distinct_ids map_ids) <-> all_load dir map_ids.
Proof.
  unfold all_load. rewrite !Forall_forall.
  split; intros Hall id Hid; apply Hall; apply distinct_ids_elem; exact Hid.
Qed.

Lemma first_failure dir (map_ids : list string) :
  all_load dir map_ids \/
  exists loaded map_id others e,
    map_ids = (loaded ++ map_id :: others)%list /\ all_load dir loaded /\
    Mapping.load_mapping dir map_id = Raise e.
Proof.
  induction map_ids as [|id map_ids IH].
  - left. constructor.
  - destruct (Mapping.load_mapping dir id) as [m|e] eqn:Hid.
    + destruct IH as [Hall | (loaded & map_id & others & e & -> & Hl & Hf)].
      * left. constructor; [rewrite Hid; reflexivity | exact Hall].
      * right. exists (id :: loaded), map_id, others, e.
        repeat split; [| exact Hf].
        constructor; [rewrite Hid; reflexivity | exact Hl].
    + right. exists [], id, map_ids, e. repeat split; [constructor | exact Hid].
Qed.

(** Naming a rule set more than once changes nothing: the call does what
    it does on the list of the distinct ids, in the order of their first
    occurrences. *)
Theorem apply_mapping_repeated_ids dir (findings : list OCSFFinding.t)
    (map_ids : list string) :
  Mapping.apply_mapping dir findings map_ids
  = Mapping.apply_mapping dir findings (distinct_ids map_ids).
Proof.
  destruct (first_failure dir map_ids)
    as [Hall | (loaded & map_id & others & e & -> & Hloaded & Hfail)].
  - unfold Mapping.apply_mapping.
    destruct (load_mappings_total dir map_ids Hall []) as [ms Hms].
    apply all_load_distinct in Hall.
    destruct (load_mappings_total dir _ Hall []) as [ms' Hms'].
    rewrite Hms, Hms'. cbn [bind].
    apply loaded_mappings in Hms, Hms'.
    rewrite distinct_ids_idempotent in Hms'. congruence.
  - unfold Mapping.apply_mapping.
    rewrite (load_mappings_first_failure dir loaded map_id others e Hloaded Hfail).
    rewrite distinct_ids_app. cbn [distinct_ids].
    assert (Hfresh : map_id ∉ loaded).
    { intros Hin. unfold all_load in Hloaded.
      rewrite Forall_forall in Hloaded. apply Hloaded in Hin.
      rewrite Hfail in Hin. discriminate Hin. }
    rewrite filter_cons_True by assumption.
    rewrite (load_mappings_first_failure dir (distinct_ids loaded) map_id _ e);
      [reflexivity | | exact Hfail].
    apply all_load_distinct, Hloaded.
Qed.


End EnricherMore.

Lemma apply_mapping_load_failure_witness :
  @Mapping.apply_mapping example_env dir_with_unknown_field
    [example_finding (Some "check_a") None] ["cis"]
  = Raise MappingLoadError.
Proof.
  apply (@apply_mapping_load_failure example_env dir_with_unknown_field
           [example_finding (Some "check_a") None] [] "cis" [] MappingLoadError).
  - constructor.
  - vm_compute. reflexivity.
Defined.


(* ================================================================== *)
(** * Further properties of the aggregator *)
(* ================================================================== *)

Section Counters.
Context {A : Type} (label : A -> string).

Lemma counter_incr_lookup (counter : gmap string nat) (k k' : string) :
  default 0 (Summarize.counter_incr counter k !! k')
  = default 0 (counter !! k') + (if decide (k = k') then 1 else 0).
Proof.
  unfold Summarize.counter_incr.
  destruct (decide (k = k')) as [->|Hne].
  - rewrite lookup_insert_eq. reflexivity.
  - rewrite lookup_insert_ne by assumption. lia.
Qed.

Lemma count_fold_lookup (l : list A) (k : string) :
  forall acc : gmap string nat,
    default 0 (foldl (fun c x => Summarize.counter_incr c (label x)) acc l !! k)
    = default 0 (acc !! k) + occurrences label k l.
Proof.
  unfold occurrences.
  induction l as [|x l IH]; intros acc; cbn [foldl].
  - cbn. lia.
  - rewrite IH, counter_incr_lookup, filter_cons.
    destruct (decide (label x = k)); cbn [length]; lia.
Qed.

Lemma count_fold_positive (l : list A) :
  forall acc : gmap string nat,
    map_Forall (fun _ n => 0 < n) acc ->
    map_Forall (fun _ n => 0 < n)
      (foldl (fun c x => Summarize.counter_incr c (label x)) acc l).
Proof.
  induction l as [|x l IH]; intros acc Hacc; cbn [foldl]; [exact Hacc |].
  apply IH. unfold Summarize.counter_incr.
  apply map_Forall_insert_2; [lia | exact Hacc].
Qed.

(** A counter holds, for each label, the number of elements with that
    label, and no entry for a label that does not occur. *)
Lemma count_fold_counted (l : list A) (k : string) :
  foldl (fun c x => Summarize.counter_incr c (label x)) ∅ l !! k
  = counted (occurrences label k l).
Proof.
  pose proof (count_fold_lookup l k ∅) as Hlookup.
  pose proof (count_fold_positive l ∅ (map_Forall_empty _)) as Hpos.
  rewrite lookup_empty in Hlookup. cbn in Hlookup.
  destruct (foldl _ ∅ l !! k) as [n|] eqn:Hk; cbn in Hlookup.
  - apply Hpos in Hk. rewrite <- Hlookup. destruct n; [lia | reflexivity].
  - rewrite <- Hlookup. reflexivity.
Qed.

Lemma counter_total_incr (counter : gmap string nat) (k : string) :
  counter_total (Summarize.counter_incr counter k) = S (counter_total counter).
Proof.
  unfold counter_total, Summarize.counter_incr.
  destruct (counter !! k) as [n|] eqn:Hk; cbn [default from_option id].
  - rewrite <- insert_delete_eq.
    rewrite map_fold_insert_L; [| intros; lia | apply lookup_delete_eq].
    rewrite (map_fold_delete_L _ _ k n counter); [lia | intros; lia | exact Hk].
  - rewrite map_fold_insert_L; [lia | intros; lia | exact Hk].
Qed.

Lemma count_fold_total (l : list A) :
  forall acc : gmap string nat,
    counter_total (foldl (fun c x => Summarize.counter_incr c (label x)) acc l)
    = counter_total acc + length l.
Proof.
  induction l as [|x l IH]; intros acc; cbn [foldl length]; [lia |].
  rewrite IH, counter_total_incr. lia.
Qed.

Lemma count_total (l : list A) :
  counter_total (foldl (fun c x => Summarize.counter_incr c (label x)) ∅ l)
  = length l.
Proof.
  rewrite count_fold_total. unfold counter_total. rewrite map_fold_empty.
  reflexivity.
Qed.

End Counters.

Section CountsOfFindings.

(** Each of the four counting functions returns, for every label, the
    number of findings with that label (the label [unknown] for an unset
    severity or status), and has no entry for a label without finding. *)
Theorem counts_by_label (findings : list Summarize.finding) (k : string) :
  Summarize.severity_counts findings !! k
  = counted (occurrences Summarize.severity_label k findings) /\
  Summarize.status_counts findings !! k
  = counted (occurrences Summarize.status_label k findings) /\
  Summarize.provider_counts findings !! k
  = counted (occurrences provider_label k findings) /\
  Summarize.product_counts findings !! k
  = counted (occurrences product_label k findings).
Proof.
  repeat split.
  - apply (count_fold_counted Summarize.severity_label).
  - apply (count_fold_counted Summarize.status_label).
  - apply (count_fold_counted provider_label).
  - apply (count_fold_counted product_label).
Qed.

(** The counts of each of the four counters add up to the number of
    findings. *)
Theorem counts_add_up (findings : list Summarize.finding) :
  counter_total (Summarize.severity_counts findings) = length findings /\
  counter_total (Summarize.status_counts findings) = length findings /\
  counter_total (Summarize.provider_counts findings) = length findings /\
  counter_total (Summarize.product_counts findings) = length findings.
Proof.
  repeat split.
  - apply (count_total Summarize.severity_label).
  - apply (count_total Summarize.status_label).
  - apply (count_total provider_label).
  - apply (count_total product_label).
Qed.

End CountsOfFindings.

Section TimeRange.

Lemma min_from_same (a : bool) (rest : list datetime) :
  forall best : datetime,
    aware best = a -> Forall (fun t => aware t = a) rest ->
    exists lo,
      Summarize.min_from best rest = Ok lo /\ lo ∈ best :: rest /\
      Forall (fun t => (instant lo <= instant t)%Z) (best :: rest).
Proof.
  induction rest as [|x rest IH]; intros best Hbest Hrest; cbn.
  - exists best. repeat split; [left | constructor; [lia | constructor]].
  - apply Forall_cons in Hrest as [Hx Hrest].
    unfold Summarize.datetime_lt. rewrite Hx, Hbest, Bool.eqb_reflx. cbn [bind].
    destruct (Z.ltb_spec (instant x) (instant best)) as [Hlt|Hge].
    + destruct (IH x Hx Hrest) as (lo & Hrun & Hin & Hall).
      exists lo. split; [exact Hrun |]. split.
      * right. exact Hin.
      * apply Forall_cons in Hall as [Hlo Hall].
        constructor; [lia |]. constructor; assumption.
    + destruct (IH best Hbest Hrest) as (lo & Hrun & Hin & Hall).
      exists lo. split; [exact Hrun |]. split.
      * apply elem_of_cons in Hin as [-> | Hin]; [left | right; right; exact Hin].
      * apply Forall_cons in Hall as [Hlo Hall].
        constructor; [exact Hlo |]. constructor; [lia | exact Hall].
Qed.

Lemma max_from_same (a : bool) (rest : list datetime) :
  forall best : datetime,
    aware best = a -> Forall (fun t => aware t = a) rest ->
    exists hi,
      Summarize.max_from best rest = Ok hi /\ hi ∈ best :: rest /\
      Forall (fun t => (instant t <= instant hi)%Z) (best :: rest).
Proof.
  induction rest as [|x rest IH]; intros best Hbest Hrest; cbn.
  - exists best. repeat split; [left | constructor; [lia | constructor]].
  - apply Forall_cons in Hrest as [Hx Hrest].
    unfold Summarize.datetime_lt. rewrite Hx, Hbest, Bool.eqb_reflx. cbn [bind].
    destruct (Z.ltb_spec (instant best) (instant x)) as [Hlt|Hge].
    + destruct (IH x Hx Hrest) as (hi & Hrun & Hin & Hall).
      exists hi. split; [exact Hrun |]. split.
      * right. exact Hin.
      * apply Forall_cons in Hall as [Hhi Hall].
        constructor; [lia |]. constructor; assumption.
    + destruct (IH best Hbest Hrest) as (hi & Hrun & Hin & Hall).
      exists hi. split; [exact Hrun |]. split.
      * apply elem_of_cons in Hin as [-> | Hin]; [left | right; right; exact Hin].
      * apply Forall_cons in Hall as [Hhi Hall].
        constructor; [exact Hhi |]. constructor; [lia | exact Hall].
Qed.

Lemma min_from_mixed (rest : list datetime) :
  forall best : datetime,
    Exists (fun t => aware t <> aware best) rest ->
    Summarize.min_from best rest = Raise TypeError.
Proof.
  induction rest as [|x rest IH]; intros best Hex; cbn.
  - apply Exists_nil in Hex. destruct Hex.
  - unfold Summarize.datetime_lt.
    destruct (Bool.eqb (aware x) (aware best)) eqn:Heq; [| reflexivity].
    apply Bool.eqb_prop in Heq. cbn [bind].
    apply Exists_cons in Hex as [Hx | Hex]; [congruence |].
    apply IH. destruct (instant x <? instant best)%Z; [| exact Hex].
    rewrite Heq. exact Hex.
Qed.

Lemma time_range_same (a : bool) (findings : list Summarize.finding) :
  findings <> [] ->
  Forall (fun x => aware (time_of x) = a) findings ->
  exists lo hi,
    Summarize.time_range_analysis findings = Ok (Some lo, Some hi) /\
    lo ∈ map time_of findings /\ hi ∈ map time_of findings /\
    Forall (fun x => (instant lo <= instant (time_of x) <= instant hi)%Z)
           findings.
Proof.
  unfold Summarize.time_range_analysis.
  change (fun x => OCSFFinding.time (Summarize.fields x)) with time_of.
  intros Hne Hall. destruct findings as [|x0 findings]; [congruence |].
  cbn [map]. apply Forall_cons in Hall as [H0 Hall].
  assert (Hts : Forall (fun t => aware t = a) (map time_of findings))
    by (apply Forall_fmap; exact Hall).
  destruct (min_from_same a _ _ H0 Hts) as (lo & Hmin & Hlo & Hlow).
  destruct (max_from_same a _ _ H0 Hts) as (hi & Hmax & Hhi & Hhigh).
  exists lo, hi. rewrite Hmin, Hmax. cbn [bind].
  repeat split; try assumption.
  change (time_of x0 :: map time_of findings)
    with (map time_of (x0 :: findings)) in Hlow, Hhigh.
  apply (proj1 (Forall_fmap _ _ _)) in Hlow.
  apply (proj1 (Forall_fmap _ _ _)) in Hhigh.
  apply Forall_forall. intros x Hx.
  apply (proj1 (Forall_forall _ _)) with (x := x) in Hlow; [| exact Hx].
  apply (proj1 (Forall_forall _ _)) with (x := x) in Hhigh; [| exact Hx].
  cbn in Hlow, Hhigh. lia.
Qed.

Lemma time_range_mixed (findings : list Summarize.finding)
    (x y : Summarize.finding) :
  x ∈ findings -> y ∈ findings ->
  aware (time_of x) <> aware (time_of y) ->
  Summarize.time_range_analysis findings = Raise TypeError.
Proof.
  unfold Summarize.time_range_analysis.
  change (fun x => OCSFFinding.time (Summarize.fields x)) with time_of.
  intros Hx Hy Hdiff. destruct findings as [|x0 findings].
  { apply elem_of_nil in Hx. destruct Hx. }
  cbn [map].
  assert (Hex : Exists (fun t => aware t <> aware (time_of x0))
                       (map time_of findings)).
  { apply Exists_exists.
    destruct (decide (aware (time_of x) = aware (time_of x0))) as [Hsame|Hx0].
    - exists (time_of y). split.
      + apply elem_of_cons in Hy as [-> | Hy]; [congruence |].
        apply list_elem_of_fmap. eauto.
      + congruence.
    - exists (time_of x). split; [| exact Hx0].
      apply elem_of_cons in Hx as [-> | Hx]; [congruence |].
      apply list_elem_of_fmap. eauto. }
  rewrite (min_from_mixed _ _ Hex). reflexivity.
Qed.

(** The time range of a list of findings: nothing for the empty list; the
    earliest and the latest time of the findings when their times all carry
    an offset or all carry none; and a [TypeError] as soon as two findings
    differ on that. *)
Theorem time_range_analysis_spec (findings : list Summarize.finding) :
  (findings = [] -> Summarize.time_range_analysis findings = Ok (None, None)) /\
  (forall a,
     findings <> [] ->
     Forall (fun x => aware (time_of x) = a) findings ->
     exists lo hi,
       Summarize.time_range_analysis findings = Ok (Some lo, Some hi) /\
       lo ∈ map time_of findings /\ hi ∈ map time_of findings /\
       Forall (fun x => (instant lo <= instant (time_of x) <= instant hi)%Z)
              findings) /\
  (forall x y,
     x ∈ findings -> y ∈ findings ->
     aware (time_of x) <> aware (time_of y) ->
     Summarize.time_range_analysis findings = Raise TypeError).
Proof.
  split; [intros ->; reflexivity | split].
  - intros a. apply time_range_same.
  - intros x y. apply time_range_mixed.
Qed.

End TimeRange.

Section UniqueResources.

Lemma size_list_to_set_le (l : list string) :
  size (list_to_set l : gset string) <= length l.
Proof.
  induction l as [|x l IH]; cbn [list_to_set length].
  - rewrite size_empty. lia.
  - rewrite size_union_alt, size_singleton.
    pose proof (subseteq_size (list_to_set l ∖ {[x]}) (list_to_set l : gset string)
                  (subseteq_difference_l _ _ _ (reflexivity _))).
    lia.
Qed.

Lemma size_list_to_set_distinct (l : list string) :
  size (list_to_set l : gset string) = length (remove_dups l).
Proof.
  rewrite <- (size_list_to_set (C := gset string) (remove_dups l))
    by apply NoDup_remove_dups.
  f_equal. apply set_eq. intros x.
  rewrite !elem_of_list_to_set, elem_of_remove_dups. reflexivity.
Qed.

Lemma length_omap_le {A B} (f : A -> option B) (l : list A) :
  length (omap f l) <= length l.
Proof.
  induction l as [|x l IH]; cbn; [lia |].
  destruct (f x); cbn; lia.
Qed.

Lemma collect_ids (get : Summarize.finding -> option string)
    (findings : list Summarize.finding) :
  forall acc : gset string,
    foldl (fun acc x =>
             match get x with
             | Some r => if Summarize.str_truthy (Some r) then {[r]} ∪ acc else acc
             | None => acc
             end) acc findings
    = list_to_set
        (omap (fun x => match get x with
                        | Some r => if String.eqb r "" then None else Some r
                        | None => None
                        end) findings) ∪ acc.
Proof.
  induction findings as [|x findings IH]; intros acc; cbn [foldl omap list_omap].
  - cbn. rewrite (left_id_L ∅ (∪)). reflexivity.
  - rewrite IH. cbn [Summarize.str_truthy].
    destruct (get x) as [r|]; [| reflexivity].
    destruct (String.eqb r ""); cbn [negb list_to_set]; [reflexivity |].
    rewrite (comm_L (∪) {[r]} (list_to_set _)), <- (assoc_L (∪)).
    reflexivity.
Qed.

Lemma unique_resource_analysis_sets (findings : list Summarize.finding) :
  Summarize.unique_resource_analysis findings
  = (size (list_to_set (resource_ids findings) : gset string),
     size (list_to_set (account_ids findings) : gset string)).
Proof.
  unfold Summarize.unique_resource_analysis, resource_ids, account_ids.
  rewrite (collect_ids (fun x => OCSFFinding.resource_id (Summarize.fields x))).
  rewrite (collect_ids (fun x => OCSFFinding.account_id (Summarize.fields x))).
  rewrite !(right_id_L ∅ (∪)). reflexivity.
Qed.

Lemma unique_resource_analysis_le (findings : list Summarize.finding) :
  (Summarize.unique_resource_analysis findings).1 <= length findings /\
  (Summarize.unique_resource_analysis findings).2 <= length findings.
Proof.
  rewrite unique_resource_analysis_sets. cbn [fst snd]. split.
  - etransitivity; [apply size_list_to_set_le |]. apply length_omap_le.
  - etransitivity; [apply size_list_to_set_le |]. apply length_omap_le.
Qed.

(** [unique_resources] and [unique_accounts] are the numbers of distinct
    non-empty resource ids and account ids of the findings: an id that
    several findings share counts once, a finding without id does not
    count, and neither number exceeds the number of findings. *)
Theorem unique_resource_analysis_spec (findings : list Summarize.finding) :
  Summarize.unique_resource_analysis findings
  = (length (remove_dups (resource_ids findings)),
     length (remove_dups (account_ids findings))) /\
  (Summarize.unique_resource_analysis findings).1 <= length findings /\
  (Summarize.unique_resource_analysis findings).2 <= length findings.
Proof.
  split; [| apply unique_resource_analysis_le].
  rewrite unique_resource_analysis_sets, !size_list_to_set_distinct.
  reflexivity.
Qed.

End UniqueResources.

Section Summary.

Lemma time_range_raise (findings : list Summarize.finding) (e : exn) :
  Summarize.time_range_analysis findings = Raise e ->
  e = TypeError /\
  exists x y, x ∈ findings /\ y ∈ findings /\
              aware (time_of x) <> aware (time_of y).
Proof.
  intros Hrun. destruct findings as [|x0 findings]; [discriminate Hrun |].
  destruct (decide (Forall (fun x => aware (time_of x) = aware (time_of x0))
                           (x0 :: findings))) as [Hall | Hmixed].
  - destruct (time_range_same _ (x0 :: findings) ltac:(discriminate) Hall)
      as (lo & hi & Hok & _).
    rewrite Hok in Hrun. discriminate Hrun.
  - apply not_Forall_Exists in Hmixed; [| intros x; apply _].
    apply Exists_exists in Hmixed as (y & Hy & Hdiff).
    assert (Hx0 : x0 ∈ x0 :: findings) by left.
    rewrite (time_range_mixed (x0 :: findings) y x0 Hy Hx0 Hdiff) in Hrun.
    injection Hrun as <-. split; [reflexivity |]. exists y, x0. auto.
Qed.

(** What [generate_finding_summary] returns and when: it fails only with a
    [TypeError], and only when two findings differ on whether their time
    carries an offset; in a summary that it returns, [total_findings] is the
    number of findings, the counts of each of the four breakdowns add up to
    it, and the numbers of unique resources and accounts do not exceed it. *)
Theorem generate_finding_summary_spec (findings : list Summarize.finding) :
  (forall e,
     Summarize.generate_finding_summary findings = Raise e ->
     e = TypeError /\
     exists x y, x ∈ findings /\ y ∈ findings /\
                 aware (time_of x) <> aware (time_of y)) /\
  (forall summary,
     Summarize.generate_finding_summary findings = Ok summary ->
     FindingSummary.total_findings summary = length findings /\
     counter_total (FindingSummary.by_severity summary) = length findings /\
     counter_total (FindingSummary.by_status summary) = length findings /\
     counter_total (FindingSummary.by_provider summary) = length findings /\
     counter_total (FindingSummary.by_product summary) = length findings /\
     FindingSummary.unique_resources summary <= length findings /\
     FindingSummary.unique_accounts summary <= length findings).
Proof.
  unfold Summarize.generate_finding_summary. split.
  - intros e Hrun.
    destruct (Summarize.time_range_analysis findings) as [r|e'] eqn:Htime;
      [discriminate Hrun |].
    injection Hrun as <-. apply time_range_raise, Htime.
  - intros summary Hrun. invert_bind Hrun. injection Hrun as <-.
    cbn [FindingSummary.total_findings FindingSummary.by_severity
         FindingSummary.by_status FindingSummary.by_provider
         FindingSummary.by_product FindingSummary.unique_resources
         FindingSummary.unique_accounts].
    destruct (unique_resource_analysis_le findings) as [? ?].
    repeat split; try assumption.
    + apply (count_total Summarize.severity_label).
    + apply (count_total Summarize.status_label).
    + apply (count_total provider_label).
    + apply (count_total product_label).
Qed.

(** The summary of no finding: zero findings, empty breakdowns, no
    framework, no time range. *)
Theorem summary_of_nothing :
  Summarize.generate_finding_summary []
  = Ok {| FindingSummary.total_findings := 0;
          FindingSummary.by_severity := ∅;
          FindingSummary.by_status := ∅;
          FindingSummary.by_provider := ∅;
          FindingSummary.by_product := ∅;
          FindingSummary.frameworks_covered := [];
          FindingSummary.scan_time_range := (None, None);
          FindingSummary.unique_resources := 0;
          FindingSummary.unique_accounts := 0 |}.
Proof. reflexivity. Qed.

Lemma frameworks_covered_without_refs (findings : list Summarize.finding) :
  Forall (fun x => Summarize.framework_refs x = []) findings ->
  sorted_framework_ids findings (Summarize.frameworks_covered_of findings).
Proof.
  intros Hnone.
  assert (Hunseen : forall x, ~ framework_id_seen findings x).
  { intros x (finding & ref & Hin & Href & _).
    rewrite Forall_forall in Hnone. rewrite (Hnone _ Hin) in Href.
    apply elem_of_nil in Href. exact Href. }
  destruct findings as [|[f|e] rest].
  - repeat split; try constructor.
    + intros Hx. apply elem_of_nil in Hx. destruct Hx.
    + intros Hx. destruct (Hunseen _ Hx).
  - repeat split; try constructor.
    + intros Hx. apply elem_of_nil in Hx. destruct Hx.
    + intros Hx. destruct (Hunseen _ Hx).
  - apply frameworks_covered_when_first_is_enriched.
Qed.

(** [frameworks_covered] is the sorted list of the distinct framework ids
    of the findings whenever the first finding is an enriched one, and
    whenever no finding has a reference. *)
Theorem frameworks_covered_of_uniform_list (findings : list Summarize.finding) :
  (exists e rest, findings = Summarize.Enriched e :: rest) \/
  Forall (fun x => Summarize.framework_refs x = []) findings ->
  sorted_framework_ids findings (Summarize.frameworks_covered_of findings).
Proof.
  intros [(e & rest & ->) | Hnone].
  - apply frameworks_covered_when_first_is_enriched.
  - apply frameworks_covered_without_refs, Hnone.
Qed.

End Summary.

Section FrameworkScore.

Lemma prefix_colon (c : ascii) (s : string) :
  String.prefix ":" (String c s) = Ascii.eqb c ":"%char.
Proof.
  cbn [String.prefix]. destruct (ascii_dec ":"%char c) as [<-|Hne].
  - destruct s; reflexivity.
  - symmetry. apply Ascii.eqb_neq. congruence.
Qed.

(** A reference that has a colon starts with its framework id and a
    colon. *)
Lemma ref_starts_with_framework (ref : string) :
  str_contains ":" ref = true ->
  String.prefix (before_colon ref ++ ":") ref = true.
Proof.
  induction ref as [|c ref IH]; [discriminate |].
  cbn [str_contains before_colon]. rewrite prefix_colon.
  destruct (Ascii.eqb_spec c ":"%char) as [->|Hne].
  - intros _. change (String.prefix ":" (String ":"%char ref) = true).
    rewrite prefix_colon. reflexivity.
  - cbn [orb]. intros Hc.
    change (String.prefix (String c (before_colon ref ++ ":")) (String c ref)
            = true).
    cbn [String.prefix].
    destruct (ascii_dec c c) as [_|Hcc]; [apply IH, Hc | congruence].
Qed.

Lemma status_occurrences (l : list Summarize.finding) :
  length l
  = occurrences Summarize.status_label "pass" l
    + occurrences Summarize.status_label "fail" l
    + (occurrences Summarize.status_label "informational" l
       + occurrences Summarize.status_label "not_applicable" l)
    + occurrences Summarize.status_label "unknown" l.
Proof.
  unfold occurrences.
  induction l as [|x l IH]; [reflexivity |].
  rewrite !filter_cons. cbn [length]. rewrite IH.
  unfold Summarize.status_label.
  destruct (OCSFFinding.status (Summarize.fields x)) as [[]|];
    cbn [Status.name]; repeat case_decide; try congruence; cbn [length]; lia.
Qed.

(** The score of a framework: [total] is the sum of [pass], [fail], [warn]
    and [unknown], so every finding of the framework is counted in exactly
    one of them, and it does not exceed the number of findings: a finding
    with several references of the framework is counted once. *)
Theorem framework_score_adds_up (findings : list Summarize.finding)
    (framework_prefix : string) :
  let score := Summarize.framework_score findings framework_prefix in
  Summarize.Score.total score
  = Summarize.Score.pass score + Summarize.Score.fail score
    + Summarize.Score.warn score + Summarize.Score.unknown score /\
  Summarize.Score.total score <= length findings /\
  Summarize.Score.total score
  = length (List.filter (Summarize.in_framework framework_prefix) findings).
Proof.
  cbn zeta. unfold Summarize.framework_score.
  cbn [Summarize.Score.total Summarize.Score.pass Summarize.Score.fail
       Summarize.Score.warn Summarize.Score.unknown].
  set (l := List.filter _ findings).
  change (fun status_counter x =>
            Summarize.counter_incr status_counter
              match OCSFFinding.status (Summarize.fields x) with
              | Some s => Status.name s
              | None => "unknown"
              end)
    with (fun c x => Summarize.counter_incr c (Summarize.status_label x)).
  rewrite !(count_fold_lookup Summarize.status_label l), !lookup_empty.
  cbn [default from_option id]. split; [| split].
  - rewrite (status_occurrences l) at 1. lia.
  - subst l. apply List.filter_length_le.
  - reflexivity.
Qed.

(** Every framework that the summary lists as covered has at least one
    finding in its score. *)
Theorem covered_framework_has_findings (findings : list Summarize.finding)
    (framework : string) :
  framework ∈ Summarize.frameworks_covered_of findings ->
  1 <= Summarize.Score.total (Summarize.framework_score findings framework).
Proof.
  intros Hcovered.
  assert (Hseen : framework_id_seen findings framework).
  { destruct findings as [|[f|e] rest];
      try (apply elem_of_nil in Hcovered; destruct Hcovered).
    apply (frameworks_covered_when_first_is_enriched e rest), Hcovered. }
  destruct Hseen as (x & ref & Hx & Href & Hcolon & ->).
  unfold Summarize.framework_score. cbn [Summarize.Score.total].
  assert (Hin : In x (List.filter (Summarize.in_framework (before_colon ref))
                                  findings)).
  { apply List.filter_In. split; [apply list_elem_of_In, Hx |].
    unfold Summarize.in_framework.
    destruct x as [f|e]; [apply elem_of_nil in Href; destruct Href |].
    cbn in Href |- *.
    destruct (OCSFEnrichedFinding.framework_refs e) as [|r rs] eqn:Hrefs;
      [apply elem_of_nil in Href; destruct Href |].
    cbn [andb]. apply existsb_exists. exists ref.
    split; [apply list_elem_of_In, Href |].
    apply ref_starts_with_framework, Hcolon. }
  destruct (List.filter _ findings); [destruct Hin | cbn; lia].
Qed.

End FrameworkScore.

Section ByFramework.

Lemma by_framework_ref_step_key (x : Summarize.finding) (ref fw : string)
    (framework_data : gmap string Summarize.FrameworkData.t) :
  is_Some (Summarize.by_framework_ref_step x framework_data ref !! fw) <->
  is_Some (framework_data !! fw) \/
  (str_contains ":" ref = true /\ fw = before_colon ref).
Proof.
  unfold Summarize.by_framework_ref_step.
  destruct (str_contains ":" ref).
  - destruct (decide (before_colon ref = fw)) as [<-|Hne].
    + rewrite lookup_insert_eq. split; [auto | eauto].
    + rewrite lookup_insert_ne by assumption.
      split; [auto |]. intros [? | [_ ->]]; [assumption | congruence].
  - split; [auto |]. intros [? | [[=] _]]. assumption.
Qed.

Lemma by_framework_refs_key (x : Summarize.finding) (refs : list string)
    (fw : string) :
  forall framework_data : gmap string Summarize.FrameworkData.t,
    is_Some (foldl (Summarize.by_framework_ref_step x) framework_data refs !! fw)
    <->
    is_Some (framework_data !! fw) \/
    exists ref, ref ∈ refs /\ str_contains ":" ref = true /\ fw = before_colon ref.
Proof.
  induction refs as [|ref refs IH]; intros framework_data; cbn [foldl].
  - split; [auto |]. intros [? | (ref & Hin & _)]; [assumption |].
    apply elem_of_nil in Hin. destruct Hin.
  - rewrite IH, by_framework_ref_step_key. split.
    + intros [[? | [Hc ->]] | (r & Hin & Hc & ->)]; [auto | |].
      * right. exists ref. split; [left | auto].
      * right. exists r. split; [right; exact Hin | auto].
    + intros [? | (r & Hin & Hc & ->)]; [auto |].
      apply elem_of_cons in Hin as [-> | Hin]; [auto |].
      right. exists r. auto.
Qed.

Lemma by_framework_step_key (x : Summarize.finding) (fw : string)
    (framework_data : gmap string Summarize.FrameworkData.t) :
  is_Some (Summarize.by_framework_step framework_data x !! fw) <->
  is_Some (framework_data !! fw) \/
  exists ref, ref ∈ Summarize.framework_refs x /\
              str_contains ":" ref = true /\ fw = before_colon ref.
Proof.
  unfold Summarize.by_framework_step.
  destruct x as [f|e]; cbn.
  - split; [auto |]. intros [? | (ref & Hin & _)]; [assumption |].
    apply elem_of_nil in Hin. destruct Hin.
  - destruct (OCSFEnrichedFinding.framework_refs e) as [|r rs] eqn:Hrefs.
    + split; [auto |]. intros [? | (ref & Hin & _)]; [assumption |].
      apply elem_of_nil in Hin. destruct Hin.
    + apply by_framework_refs_key.
Qed.

Lemma by_framework_fold_key (findings : list Summarize.finding) (fw : string) :
  forall framework_data : gmap string Summarize.FrameworkData.t,
    is_Some (foldl Summarize.by_framework_step framework_data findings !! fw)
    <-> is_Some (framework_data !! fw) \/ framework_id_seen findings fw.
Proof.
  unfold framework_id_seen.
  induction findings as [|x findings IH]; intros framework_data; cbn [foldl].
  - split; [auto |]. intros [? | (f & ref & Hin & _)]; [assumption |].
    apply elem_of_nil in Hin. destruct Hin.
  - rewrite IH, by_framework_step_key. split.
    + intros [[? | (ref & Hin & Hc & ->)] | (f & ref & Hf & Hin & Hc & ->)].
      * auto.
      * right. exists x, ref. split; [left | auto].
      * right. exists f, ref. split; [right; exact Hf | auto].
    + intros [? | (f & ref & Hf & Hin & Hc & ->)]; [auto |].
      apply elem_of_cons in Hf as [-> | Hf].
      * left. right. exists ref. auto.
      * right. exists f, ref. auto.
Qed.

Lemma size_add_control (control : string) (controls : gset string) :
  1 <= size ({[control]} ∪ controls) <= S (size controls).
Proof.
  rewrite size_union_alt, size_singleton.
  pose proof (subseteq_size (controls ∖ {[control]}) controls
                (subseteq_difference_l _ _ _ (reflexivity _))).
  lia.
Qed.

Lemma by_framework_ref_step_ok (x : Summarize.finding) (ref : string)
    (framework_data : gmap string Summarize.FrameworkData.t) :
  map_Forall (fun _ => framework_data_ok) framework_data ->
  map_Forall (fun _ => framework_data_ok)
             (Summarize.by_framework_ref_step x framework_data ref).
Proof.
  intros Hok. unfold Summarize.by_framework_ref_step.
  destruct (str_contains ":" ref); [| exact Hok].
  apply map_Forall_insert_2; [| exact Hok].
  unfold framework_data_ok. cbn.
  pose proof (size_add_control (after_colon ref)) as Hsize.
  destruct (framework_data !! before_colon ref) as [data|] eqn:Hdata; cbn.
  - apply Hok in Hdata as (Htotal & Hone & Hle).
    specialize (Hsize (Summarize.FrameworkData.controls data)).
    rewrite length_app. cbn. lia.
  - specialize (Hsize ∅). rewrite size_empty in Hsize. lia.
Qed.

Lemma by_framework_fold_ok (findings : list Summarize.finding) :
  forall framework_data : gmap string Summarize.FrameworkData.t,
    map_Forall (fun _ => framework_data_ok) framework_data ->
    map_Forall (fun _ => framework_data_ok)
               (foldl Summarize.by_framework_step framework_data findings).
Proof.
  induction findings as [|x findings IH]; intros framework_data Hok;
    cbn [foldl]; [exact Hok |].
  apply IH. unfold Summarize.by_framework_step.
  destruct (_ && _); [| exact Hok].
  generalize dependent framework_data.
  induction (Summarize.framework_refs x) as [|ref refs IHr];
    intros framework_data Hok; cbn [foldl]; [exact Hok |].
  apply IHr, by_framework_ref_step_ok, Hok.
Qed.

(** [by_framework] has a key for a framework exactly when it is the
    framework id of a reference of some finding, whatever the position of
    that finding in the list; under each key, the controls are sorted and
    distinct, their number is [controls_count], which is at least one and
    at most [total], and [total] is the number of findings kept. *)
Theorem by_framework_keys (findings : list Summarize.finding) (fw : string) :
  (is_Some (Summarize.by_framework findings !! fw)
   <-> framework_id_seen findings fw) /\
  (forall g, Summarize.by_framework findings !! fw = Some g ->
             framework_breakdown_ok g).
Proof.
  unfold Summarize.by_framework. rewrite lookup_fmap. split.
  - rewrite fmap_is_Some, by_framework_fold_key, lookup_empty.
    split; [intros [[? [=]] | ?]; assumption | auto].
  - intros g Hg.
    destruct (foldl Summarize.by_framework_step ∅ findings !! fw)
      as [data|] eqn:Hdata; [| discriminate Hg].
    injection Hg as <-.
    apply (by_framework_fold_ok findings ∅ (map_Forall_empty _)) in Hdata
      as (Htotal & Hone & Hle).
    unfold framework_breakdown_ok, Summarize.framework_breakdown,
      Summarize.sorted. cbn.
    repeat split; try assumption.
    + rewrite merge_sort_Permutation. reflexivity.
    + apply (Sorted_merge_sort (fun x y : string => String.leb x y)).
    + rewrite merge_sort_Permutation. apply NoDup_elements.
Qed.

End ByFramework.

Section ByProvider.

Lemma by_provider_fold_lookup (findings : list Summarize.finding)
    (provider : Provider.t) :
  forall provider_data : gmap string Summarize.ProviderData.t,
    foldl Summarize.by_provider_step provider_data findings
      !! Provider.name provider
    = match findings_of_provider provider findings with
      | [] => provider_data !! Provider.name provider
      | l =>
          Some (foldl Summarize.provider_data_add
                  (default Summarize.ProviderData.initial
                     (provider_data !! Provider.name provider)) l)
      end.
Proof.
  unfold findings_of_provider.
  induction findings as [|x findings IH]; intros provider_data; cbn [foldl].
  - reflexivity.
  - rewrite IH, filter_cons. unfold Summarize.by_provider_step.
    change (Provider.name (OCSFFinding.provider (Summarize.fields x)))
      with (provider_label x).
    destruct (decide (provider_label x = Provider.name provider)) as [->|Hne].
    + rewrite lookup_insert_eq. cbn [default from_option id foldl].
      destruct (filter _ findings); reflexivity.
    + rewrite lookup_insert_ne by assumption. reflexivity.
Qed.

Lemma provider_data_fold (l : list Summarize.finding) :
  forall data : Summarize.ProviderData.t,
    foldl Summarize.provider_data_add data l
    = {| Summarize.ProviderData.total :=
           Summarize.ProviderData.total data + length l;
         Summarize.ProviderData.by_severity :=
           foldl (fun c x => Summarize.counter_incr c (Summarize.severity_label x))
                 (Summarize.ProviderData.by_severity data) l;
         Summarize.ProviderData.by_status :=
           foldl (fun c x => Summarize.counter_incr c (Summarize.status_label x))
                 (Summarize.ProviderData.by_status data) l;
         Summarize.ProviderData.by_product :=
           foldl (fun c x => Summarize.counter_incr c (product_label x))
                 (Summarize.ProviderData.by_product data) l;
         Summarize.ProviderData.unique_resources :=
           foldl (fun acc x =>
                    match OCSFFinding.resource_id (Summarize.fields x) with
                    | Some r => if Summarize.str_truthy (Some r)
                                then {[r]} ∪ acc else acc
                    | None => acc
                    end) (Summarize.ProviderData.unique_resources data) l;
         Summarize.ProviderData.unique_accounts :=
           foldl (fun acc x =>
                    match OCSFFinding.account_id (Summarize.fields x) with
                    | Some a => if Summarize.str_truthy (Some a)
                                then {[a]} ∪ acc else acc
                    | None => acc
                    end) (Summarize.ProviderData.unique_accounts data) l |}.
Proof.
  induction l as [|x l IH]; intros data; cbn [foldl length].
  - destruct data. cbn. f_equal. lia.
  - rewrite IH. cbn. f_equal. lia.
Qed.

(** [by_provider] is the summary provider by provider: it has a key for a
    provider exactly when some finding has that provider, and the value
    under the key holds the number of those findings, their counts by
    severity, status and product, and their numbers of unique resources and
    accounts, as the functions of the summary compute them on those
    findings. *)
Theorem by_provider_is_summary_per_provider
    (findings : list Summarize.finding) (provider : Provider.t) :
  Summarize.by_provider findings !! Provider.name provider
  = match findings_of_provider provider findings with
    | [] => None
    | l => Some (breakdown_of l)
    end.
Proof.
  unfold Summarize.by_provider.
  rewrite lookup_fmap, by_provider_fold_lookup, lookup_empty.
  destruct (findings_of_provider provider findings) as [|x l]; [reflexivity |].
  cbn [fmap option_fmap option_map default from_option id].
  rewrite provider_data_fold. reflexivity.
Qed.

End ByProvider.

Section ResourceType.

Lemma string_app_nil_r (s : string) : s ++ "" = s.
Proof.
  induction s as [|c s IH]; [reflexivity |].
  change (String c (s ++ "") = String c s). rewrite IH. reflexivity.
Qed.

Lemma string_app_assoc (s t u : string) : (s ++ t) ++ u = s ++ (t ++ u).
Proof.
  induction s as [|c s IH]; [reflexivity |].
  change (String c ((s ++ t) ++ u) = String c (s ++ (t ++ u))).
  rewrite IH. reflexivity.
Qed.

Lemma split_colon_cons (cur : string) (c : ascii) (s : string) :
  split_from ":" 0 cur (String c s)
  = if Ascii.eqb c ":"%char then cur :: split_from ":" 0 "" s
    else split_from ":" 0 (cur ++ String c "") s.
Proof. cbn [split_from]. rewrite prefix_colon. reflexivity. Qed.

(** The first part of a string split at its colons is the part before its
    first colon. *)
Lemma split_colon_head (s : string) :
  forall cur, split_from ":" 0 cur s !! 0 = Some (cur ++ before_colon s).
Proof.
  induction s as [|c s IH]; intros cur.
  - cbn. rewrite string_app_nil_r. reflexivity.
  - rewrite split_colon_cons. cbn [before_colon].
    destruct (Ascii.eqb c ":"%char).
    + cbn. rewrite string_app_nil_r. reflexivity.
    + rewrite IH, string_app_assoc. reflexivity.
Qed.

Lemma split_arn (rest : string) :
  split ":" ("arn:aws:" ++ rest) = "arn" :: "aws" :: split_from ":" 0 "" rest.
Proof.
  unfold split.
  change ("arn:aws:" ++ rest)
    with (String "a" (String "r" (String "n" (String ":" (String "a"
            (String "w" (String "s" (String ":" rest)))))))).
  rewrite !split_colon_cons. reflexivity.
Qed.

Lemma prefix_arn (rest : string) :
  String.prefix "arn:aws:" ("arn:aws:" ++ rest) = true.
Proof.
  change ("arn:aws:" ++ rest)
    with (String "a" (String "r" (String "n" (String ":" (String "a"
            (String "w" (String "s" (String ":" rest)))))))).
  cbn [String.prefix].
  repeat match goal with
         | |- context [ascii_dec ?a ?b] =>
             destruct (ascii_dec a b) as [_|Hne]; [| congruence]
         end.
  destruct rest; reflexivity.
Qed.

(** The resource type of an AWS ARN is its service: what stands between
    the prefix [arn:aws:] and the next colon, or the end of the string. *)
Theorem resource_type_of_arn (rest : string) :
  Summarize._extract_resource_type ("arn:aws:" ++ rest)
  = Some (before_colon rest).
Proof.
  unfold Summarize._extract_resource_type, Summarize.aws_resource_type.
  rewrite prefix_arn, split_arn.
  pose proof (split_colon_head rest "") as Hhead.
  destruct (split_from ":" 0 "" rest) as [|service parts] eqn:Hsplit;
    [discriminate Hhead |].
  cbn in Hhead |- *. rewrite Hhead. reflexivity.
Qed.

End ResourceType.

(* ================================================================== *)
(** * Properties of the run of a scan *)
(* ================================================================== *)

Section Run.
Context `{PyEnv}.
Implicit Type dir : gmap string Mapping.yaml_file.

Lemma apply_frameworks_cases dir (all_findings : list OCSFFinding.t)
    (frameworks : list string) :
  Pipeline.apply_frameworks dir all_findings frameworks
  = map Summarize.Plain all_findings \/
  exists enriched,
    Mapping.apply_mapping dir all_findings frameworks = Ok enriched /\
    Pipeline.apply_frameworks dir all_findings frameworks
    = map Summarize.Enriched enriched.
Proof.
  unfold Pipeline.apply_frameworks.
  destruct frameworks as [|fw frameworks]; [auto |].
  destruct (Mapping.apply_mapping dir all_findings (fw :: frameworks))
    as [enriched|e]; eauto.
Qed.

Lemma same_but_severity_refl (f : OCSFFinding.t) : same_but_severity f f.
Proof. repeat split. Qed.

(** Step 4 of a run never loses a finding: whether the mappings apply,
    fail to load or fail to validate, it hands on one finding per parsed
    finding, in the same order, equal to it on every canonical field other
    than [severity]. *)
Theorem apply_frameworks_keeps_findings dir (all_findings : list OCSFFinding.t)
    (frameworks : list string) :
  Forall2 (fun f x => same_but_severity (Summarize.fields x) f)
          all_findings (Pipeline.apply_frameworks dir all_findings frameworks).
Proof.
  destruct (apply_frameworks_cases dir all_findings frameworks)
    as [-> | (enriched & Hrun & ->)].
  - apply Forall2_fmap_r, Forall_Forall2_diag, Forall_forall.
    intros f _. apply same_but_severity_refl.
  - apply apply_mapping_spec in Hrun as [_ Hall].
    apply Forall2_fmap_r. eapply Forall2_impl; [exact Hall |].
    intros f e He. cbn. eapply enrichment_of_frame, He.
Qed.

Lemma before_colon_of_ref (map_id target : string) :
  str_contains ":" map_id = false ->
  before_colon (map_id ++ ":" ++ target) = map_id.
Proof.
  induction map_id as [|c map_id IH]; [reflexivity |].
  cbn [str_contains]. rewrite prefix_colon.
  destruct (Ascii.eqb c ":"%char) eqn:Hc; [discriminate |]. cbn [orb].
  intros Hfree.
  change (before_colon (String c (map_id ++ ":" ++ target)) = String c map_id).
  cbn [before_colon]. rewrite Hc, IH by assumption. reflexivity.
Qed.

(** The summary of a run: it counts every parsed finding, whether or not
    the mappings applied; its [frameworks_covered] is the sorted list of the
    distinct framework ids of the findings that step 4 hands on; and when no
    configured framework id has a colon, every framework that it lists is
    one of the configured ids. *)
Theorem summarize_run_spec dir (all_findings : list OCSFFinding.t)
    (frameworks : list string) (summary : FindingSummary.t) :
  Pipeline.summarize_run dir all_findings frameworks = Ok summary ->
  FindingSummary.total_findings summary = length all_findings /\
  sorted_framework_ids
    (Pipeline.apply_frameworks dir all_findings frameworks)
    (FindingSummary.frameworks_covered summary) /\
  (colon_free frameworks ->
   forall fw, fw ∈ FindingSummary.frameworks_covered summary -> fw ∈ frameworks).
Proof.
  unfold Pipeline.summarize_run. intros Hsum.
  assert (Hlen : length (Pipeline.apply_frameworks dir all_findings frameworks)
                 = length all_findings).
  { destruct (apply_frameworks_cases dir all_findings frameworks)
      as [-> | (enriched & Hrun & ->)]; rewrite length_map; [reflexivity |].
    apply apply_mapping_spec in Hrun as [_ Hall].
    symmetry. eapply Forall2_length, Hall. }
  assert (Hcov : FindingSummary.frameworks_covered summary
                 = Summarize.frameworks_covered_of
                     (Pipeline.apply_frameworks dir all_findings frameworks)).
  { unfold Summarize.generate_finding_summary in Hsum.
    invert_bind Hsum. injection Hsum as <-. reflexivity. }
  assert (Hsorted : sorted_framework_ids
            (Pipeline.apply_frameworks dir all_findings frameworks)
            (FindingSummary.frameworks_covered summary)).
  { rewrite Hcov.
    destruct (apply_frameworks_cases dir all_findings frameworks)
      as [-> | (enriched & _ & ->)].
    - apply frameworks_covered_without_refs, Forall_fmap, Forall_forall.
      intros f _. reflexivity.
    - destruct enriched as [|e enriched].
      + apply frameworks_covered_without_refs. constructor.
      + apply frameworks_covered_when_first_is_enriched. }
  split; [| split; [exact Hsorted |]].
  - rewrite <- Hlen. unfold Summarize.generate_finding_summary in Hsum.
    invert_bind Hsum. injection Hsum as <-. reflexivity.
  - intros Hfree fw Hfw.
    apply Hsorted in Hfw as (x & ref & Hx & Href & _ & ->).
    destruct (apply_frameworks_cases dir all_findings frameworks)
      as [Hplain | (enriched & Hrun & Henriched)].
    + rewrite Hplain in Hx. apply list_elem_of_fmap in Hx as (f & -> & _).
      apply elem_of_nil in Href. destruct Href.
    + rewrite Henriched in Hx. apply list_elem_of_fmap in Hx as (e & -> & He).
      cbn in Href.
      apply apply_mapping_spec in Hrun as [_ Hall].
      apply list_elem_of_lookup in He as [i He].
      destruct (Forall2_lookup_r _ _ _ _ _ Hall He) as (f & _ & Hone).
      apply enrichment_of_refs in Hone. rewrite Hone in Href.
      apply list_elem_of_fmap in Href as ([map_id rule] & -> & Hrule).
      apply matching_rules_elem in Hrule as (Hid & _ & _).
      unfold ref_of. cbn [fst snd].
      rewrite before_colon_of_ref; [exact Hid |].
      unfold colon_free in Hfree. rewrite Forall_forall in Hfree. auto.
Qed.

End Run.

Lemma summarize_run_spec_witness :
  exists summary,
    @Pipeline.summarize_run example_env example_dir
      [example_finding (Some "check_a") None; example_finding None None]
      ["nist"; "cis"] = Ok summary /\
    FindingSummary.total_findings summary = 2.
Proof.
  eexists.
  refine (let Hrun := _ in
          conj Hrun (proj1 (@summarize_run_spec example_env example_dir
                              [example_finding (Some "check_a") None;
                               example_finding None None]
                              ["nist"; "cis"] _ Hrun))).
  vm_compute. reflexivity.
Defined.

(** ** Closed instances *)

Lemma time_range_analysis_spec_witness :
  Summarize.time_range_analysis aware_then_naive = Raise TypeError.
Proof.
  eapply (proj2 (proj2 (time_range_analysis_spec aware_then_naive))).
  - left.
  - right. left.
  - cbn. discriminate.
Defined.

Lemma generate_finding_summary_spec_witness :
  exists summary,
    Summarize.generate_finding_summary plain_then_enriched = Ok summary /\
    FindingSummary.total_findings summary = 2.
Proof.
  eexists.
  refine (let Hrun := _ in
          conj Hrun (proj1 (proj2 (generate_finding_summary_spec
                                     plain_then_enriched) _ Hrun))).
  vm_compute. reflexivity.
Defined.

Lemma frameworks_covered_of_uniform_list_witness :
  sorted_framework_ids (rev plain_then_enriched)
    (Summarize.frameworks_covered_of (rev plain_then_enriched)).
Proof.
  apply frameworks_covered_of_uniform_list.
  left. eexists. eexists. reflexivity.
Defined.

Lemma covered_framework_has_findings_witness :
  1 <= Summarize.Score.total
         (Summarize.framework_score (rev plain_then_enriched) "cis_aws_1_4").
Proof.
  apply covered_framework_has_findings.
  vm_compute. left.
Defined.

Lemma by_framework_keys_witness :
  exists g,
    Summarize.by_framework plain_then_enriched !! "cis_aws_1_4" = Some g /\
    framework_breakdown_ok g.
Proof.
  eexists.
  refine (let Hkey := _ in
          conj Hkey (proj2 (by_framework_keys plain_then_enriched "cis_aws_1_4")
                           _ Hkey)).
  vm_compute. reflexivity.
Defined.

Lemma apply_mapping_app_witness :
  exists enriched,
    @Mapping.apply_mapping example_env example_dir
      ([example_finding (Some "check_a") None] ++ [example_finding None None])
      ["cis"] = Ok enriched /\
    length enriched = 2.
Proof.
  destruct (@Mapping.apply_mapping example_env example_dir
              ([example_finding (Some "check_a") None]
               ++ [example_finding None None]) ["cis"])
    as [enriched|] eqn:Hrun; [| vm_compute in Hrun; discriminate Hrun].
  exists enriched. split; [reflexivity |].
  apply (proj1 (@apply_mapping_app example_env example_dir _ _ _ _)) in Hrun
    as (e1 & e2 & H1 & H2 & ->).
  vm_compute in H1, H2. injection H1 as <-. injection H2 as <-. reflexivity.
Defined.

(* ------------------------------------------------------------------ *)
(** ** A loaded rule set and its file *)

Section LoaderMirror.
Context `{PyEnv}.

Lemma required_str_Some (d : gmap string json) (k s : string) :
  Validate.required_str d k = Some s -> d !! k = Some (JStr s).
Proof.
  unfold Validate.required_str.
  destruct (d !! k) as [[]|]; intros [= ->]; reflexivity.
Qed.

Lemma mapping_rule_Some (entry : json) (rule : MappingRule.t) :
  Validate.mapping_rule entry = Some rule -> rule_of_entry entry rule.
Proof.
  unfold Validate.mapping_rule. destruct entry as [ | | | | | | d]; try discriminate.
  destruct (Validate.no_extra _ d); [| discriminate].
  intros Hv.
  apply bind_Some in Hv as (source & Hsource & Hv).
  apply bind_Some in Hv as (target & Htarget & Hv).
  apply bind_Some in Hv as (title & Htitle & Hv).
  apply bind_Some in Hv as (description & Hdescription & Hv).
  apply bind_Some in Hv as (severity & Hseverity & Hv).
  injection Hv as <-. exists d. cbn.
  repeat (split; [solve [reflexivity | apply required_str_Some; assumption] |]).
  unfold Validate.optional_str in Hseverity.
  destruct (d !! "severity") as [[]|]; try discriminate;
    injection Hseverity as <-; auto.
Qed.

(** A rule set that loads is the file's: the file holds a mapping whose
    [map_id], [name], [version], [description] and [framework_type] are the
    strings of the loaded rule set, and whose [rules] list has one entry per
    loaded rule, in the same order, with the rule's source, target, title,
    description and severity (null or missing for a rule without one). *)
Theorem loaded_mapping_mirrors_file dir (map_id : string)
    (mapping : ComplianceMapping.t) :
  Mapping.load_mapping dir map_id = Ok mapping ->
  exists data entries,
    dir !! map_id = Some (Mapping.Yaml (JDict data)) /\
    data !! "map_id" = Some (JStr (ComplianceMapping.map_id mapping)) /\
    data !! "name" = Some (JStr (ComplianceMapping.name mapping)) /\
    data !! "version" = Some (JStr (ComplianceMapping.version mapping)) /\
    data !! "description" = Some (JStr (ComplianceMapping.description mapping)) /\
    data !! "framework_type"
    = Some (JStr (ComplianceMapping.framework_type mapping)) /\
    data !! "rules" = Some (JList entries) /\
    Forall2 rule_of_entry entries (ComplianceMapping.rules mapping).
Proof.
  unfold Mapping.load_mapping.
  destruct (dir !! map_id) as [[ | | [ | | | | | | data ] ]|]; try discriminate.
  destruct (Validate.compliance_mapping data) as [m|] eqn:Hv; [| discriminate].
  intros [= ->]. unfold Validate.compliance_mapping in Hv.
  destruct (Validate.no_extra _ data); [| discriminate].
  apply bind_Some in Hv as (id & Hid & Hv).
  apply bind_Some in Hv as (name & Hname & Hv).
  apply bind_Some in Hv as (version & Hversion & Hv).
  apply bind_Some in Hv as (description & Hdescription & Hv).
  apply bind_Some in Hv as (framework_type & Hframework_type & Hv).
  apply bind_Some in Hv as (provider & _ & Hv).
  apply bind_Some in Hv as (rules & Hrules & Hv).
  apply bind_Some in Hv as (categories & _ & Hv).
  apply bind_Some in Hv as (metadata & _ & Hv).
  injection Hv as <-. cbn.
  destruct (data !! "rules") as [[ | | | | | entries | ]|] eqn:Hentries;
    try discriminate.
  exists data, entries.
  repeat (split;
          [solve [reflexivity | assumption | apply required_str_Some; assumption] |]).
  apply mapM_Some in Hrules.
  eapply Forall2_impl; [exact Hrules |]. apply mapping_rule_Some.
Qed.

End LoaderMirror.

Lemma loaded_mapping_mirrors_file_witness :
  exists mapping,
    @Mapping.load_mapping example_env example_dir "cis" = Ok mapping /\
    exists data entries,
      example_dir !! "cis" = Some (Mapping.Yaml (JDict data)) /\
      data !! "rules" = Some (JList entries) /\
      Forall2 rule_of_entry entries (ComplianceMapping.rules mapping).
Proof.
  eexists.
  refine (let Hrun := _ in
          conj Hrun
            (match @loaded_mapping_mirrors_file example_env example_dir "cis" _ Hrun
             with
             | ex_intro _ data (ex_intro _ entries
                 (conj Hf (conj _ (conj _ (conj _ (conj _ (conj _ (conj Hr Hall))))))))
               => ex_intro _ data (ex_intro _ entries (conj Hf (conj Hr Hall)))
             end)).
  vm_compute. reflexivity.
Defined.
